(** * ISA-API curation utilities: a shallow embedding of [isatools/utils.py]

    The development follows the Python module function by function.
    Python lists are Rocq lists, Python [str] values are [string]s (read
    as sequences of ASCII characters), dictionaries whose iteration order
    matters are association lists in insertion order, and Python sets are
    [gset]s.  Code that can raise returns an [outcome]. *)

From Stdlib Require Import ZArith Ascii String.
From stdpp Require Import base list strings gmap.

Local Open Scope string_scope.
Local Open Scope list_scope.

(** ** Outcomes of Python code that may raise *)

Inductive exn : Type :=
  | ValueError
  | IndexError
  | KeyError
  | TypeError
  | IOError
  | StopIteration
  | FileNotFoundError
  | UnboundLocalError.

Inductive outcome (A : Type) : Type :=
  | Returned (a : A)
  | Raised (e : exn).
Arguments Returned {A} a.
Arguments Raised {A} e.

(** Sequencing: an exception raised by the first computation propagates. *)
#[global] Instance outcome_ret : MRet outcome := fun A a => Returned a.
#[global] Instance outcome_bind : MBind outcome := fun A B k m =>
  match m with
  | Returned a => k a
  | Raised e => Raised e
  end.

(** [raises_only P m]: every exception [m] can raise satisfies [P]. *)
Definition raises_only {A : Type} (P : exn -> Prop) (m : outcome A) : Prop :=
  forall e, m = Raised e -> P e.

(** ** [recast_columns] (utils.py, lines 256-269) *)

(** The literal [casting_map]; a Python dict iterates in insertion order. *)
Definition casting_map : list (string * string) :=
  [ ("Material Type", "Characteristics[Material Type]");
    ("Date", "Parameter Value[Date]");
    ("Performer", "Parameter Value[Performer]") ].

(** [for k, v in casting_map.items():
       columns = list(map(lambda x: v if x == k else x, columns))] *)
Definition recast_columns (columns : list string) : list string :=
  fold_left
    (fun cols kv => map (fun x => if String.eqb x (fst kv) then snd kv else x) cols)
    casting_map columns.

(** The replacement the documentation of [recast_columns] describes, one
    column at a time. *)
Definition recast_one (x : string) : string :=
  if String.eqb x "Material Type" then "Characteristics[Material Type]"
  else if String.eqb x "Date" then "Parameter Value[Date]"
  else if String.eqb x "Performer" then "Parameter Value[Performer]"
  else x.

(** ** The ISA object model read by this module ([isatools.model])

    Only the attributes that [utils.py] reads are kept. *)

Record Protocol := { protocol_name : string }.

(** [Process.id] and [Process.executes_protocol]. *)
Record Process := { process_id : string; executes_protocol : Protocol }.

(** The nodes of an experimental graph: processes, materials (sources,
    samples, extracts) and data files.  [isinstance(n, Process)] holds of
    the first constructor only. *)
Inductive node : Type :=
  | NProcess (p : Process)
  | NMaterial (name : string)
  | NDataFile (filename : string).

Definition as_process (n : node) : option Process :=
  match n with
  | NProcess p => Some p
  | _ => None
  end.

(** A [networkx.DiGraph]: [G.nodes()] enumerates the nodes in insertion
    order, and the predecessor table [G._pred] gives, for a node, the
    sources of its incoming edges (one entry per edge: a DiGraph has no
    parallel edges). *)
Record DiGraph := {
  nodes : list node;
  pred : node -> list node
}.

(** [G.in_edges(n)]: the edges [(u, n)] for [u] among the predecessors. *)
Definition in_edges (G : DiGraph) (n : node) : list (node * node) :=
  map (fun u => (u, n)) (pred G n).

Record DataFile := { df_filename : string; df_label : string }.

Record Assay := {
  a_filename : string;
  a_graph : DiGraph;
  measurement_type_term : string;
  data_files : list DataFile
}.

Record Study := {
  s_filename : string;
  s_graph : DiGraph;
  assays : list Assay
}.

Record Investigation := { studies : list Study }.

(** An open investigation file: [inv_fp.name] split by [os.path] into
    directory and base name. *)
Record InvFile := { inv_dirname : string; inv_basename : string }.

(** ** [detect_graph_process_pooling] (utils.py, lines 56-72)

    Calls to [log.info] and [log.debug] only feed the logging subsystem;
    they are left out of the embedding throughout. *)

(** [for process in [n for n in G.nodes() if isinstance(n, Process)]:
       if len(G.in_edges(process)) > 1: report.append(process.id)] *)
Definition detect_graph_process_pooling (G : DiGraph) : list string :=
  fold_left
    (fun report process =>
       if (1 <? length (in_edges G (NProcess process)))%nat
       then report ++ [process_id process]
       else report)
    (omap as_process (nodes G)) [].

(** What one node contributes to the report, in the words of the
    documentation: the id of a process on which edges pool. *)
Definition pooling_entry (G : DiGraph) (n : node) : list string :=
  match n with
  | NProcess p =>
      if decide (1 < length (in_edges G n))%nat then [process_id p] else []
  | _ => []
  end.

(** ** [detect_isatab_process_pooling] (utils.py, lines 75-103) *)

Section loading.

(** [isatab.load] lives outside this module: it either returns the
    investigation read from the file or raises. *)
Variable load : InvFile -> outcome Investigation.

(** A report entry is the one-key dict [{filename: pooling_list}]. *)
Definition detect_isatab_process_pooling (fp : InvFile)
  : outcome (list (string * list string)) :=
  ISA ← load fp;
  mret (fold_left
    (fun report study =>
       let pooling_list := detect_graph_process_pooling (s_graph study) in
       let report :=
         if (0 <? length pooling_list)%nat
         then report ++ [(s_filename study, pooling_list)] else report in
       fold_left
         (fun report assay =>
            let pooling_list := detect_graph_process_pooling (a_graph assay) in
            if (0 <? length pooling_list)%nat
            then report ++ [(a_filename assay, pooling_list)] else report)
         (assays study) report)
    (studies ISA) []).

End loading.

(** The entry a table contributes to the report: present exactly when its
    pooling list is not empty. *)
Definition table_entry (filename : string) (G : DiGraph)
  : list (string * list string) :=
  match detect_graph_process_pooling G with
  | [] => []
  | pooling_list => [(filename, pooling_list)]
  end.

(** The tables of an investigation in load order: every study followed by
    its own assays. *)
Definition tables_in_load_order (ISA : Investigation) : list (string * DiGraph) :=
  flat_map
    (fun s => (s_filename s, s_graph s)
              :: map (fun a => (a_filename a, a_graph a)) (assays s))
    (studies ISA).


(** ** [create_isatab_archive] (utils.py, lines 173-232) *)

(** The regular files of the investigation's directory, by their name
    relative to it: [isfile d f] is
    [os.path.isfile(os.path.join(dirname, f))]. *)
Definition Directory := list string.

Definition isfile (d : Directory) (f : string) : bool := bool_decide (f ∈ d).

Definition path_join (dirname name : string) : string := dirname +:+ "/" +:+ name.

(** Writing a [ZipFile]: the state is [zip_file.namelist()], the arcnames
    of the members written so far; a step either returns or raises, and the
    members written before an exception stay in the archive. *)
Definition zipM (A : Type) : Type := list string -> list string * outcome A.

Definition zret {A : Type} (a : A) : zipM A := fun members => (members, Returned a).

Definition zraise {A : Type} (e : exn) : zipM A := fun members => (members, Raised e).

Definition zbind {A B : Type} (m : zipM A) (k : A -> zipM B) : zipM B :=
  fun members =>
    match m members with
    | (members', Returned a) => k a members'
    | (members', Raised e) => (members', Raised e)
    end.

(** [for x in l: body(x)] *)
Fixpoint zfor {A : Type} (l : list A) (body : A -> zipM unit) : zipM unit :=
  match l with
  | [] => zret tt
  | x :: l' => zbind (body x) (fun _ => zfor l' body)
  end.

(** [zip_file.write(os.path.join(dirname, name), arcname=name)]: the file
    is read from the directory, so a missing file raises. *)
Definition zip_write (d : Directory) (name : string) : zipM unit :=
  fun members =>
    if isfile d name then (members ++ [name], Returned tt)
    else (members, Raised FileNotFoundError).

(** [zip_file.write(inv_fp.name, arcname=os.path.basename(inv_fp.name))]:
    [inv_fp] is an open file, so this write finds its file. *)
Definition zip_write_inv (inv_fp : InvFile) : zipM unit :=
  fun members => (members ++ [inv_basename inv_fp], Returned tt).

Definition namelist : zipM (list string) := fun members => (members, Returned members).

(** What a call leaves behind: the value returned or the exception raised,
    and the archive file it created, if any, with its member names. *)
Record ArchiveRun := {
  run_result : outcome (option (list string));
  run_archive : option (string * list string)
}.

(** [[a for a in s.assays if a.measurement_type.term == filter_by_measurement]]
    or [s.assays] when no filter is given. *)
Definition select_assays (filter_by_measurement : option string) (s : Study)
  : list Assay :=
  match filter_by_measurement with
  | Some m => filter (fun a => measurement_type_term a = m) (assays s)
  | None => assays s
  end.

Section archive.

Variable load : InvFile -> outcome Investigation.

(** The first loop over the studies: it accumulates the data file names and
    leaves in the local variable [selected_assays] (unbound before the
    loop, hence the [option]) the selection made for the last study. *)
Definition collect_files (filter_by_measurement : option string) (ISA : Investigation)
  : list string * option (list Assay) :=
  fold_left
    (fun '(all_files_in_isatab, _) s =>
       let selected_assays := select_assays filter_by_measurement s in
       (fold_left
          (fun all_files a => all_files ++ map df_filename (data_files a))
          selected_assays all_files_in_isatab,
        Some selected_assays))
    (studies ISA) ([], None).

(** The body of [with ZipFile(target_filename, mode='w') as zip_file:]. *)
Definition write_archive (d : Directory) (inv_fp : InvFile) (ISA : Investigation)
    (selected_assays : option (list Assay)) (all_files_in_isatab : list string)
  : zipM (list string) :=
  zbind (zip_write_inv inv_fp) (fun _ =>
  zbind (zfor (studies ISA) (fun s =>
           zbind (zip_write d (s_filename s)) (fun _ =>
           match selected_assays with
           | Some selected => zfor selected (fun a => zip_write d (a_filename a))
           | None => zraise UnboundLocalError
           end))) (fun _ =>
  zbind (zfor all_files_in_isatab (fun file => zip_write d file)) (fun _ =>
  namelist))).

Definition create_isatab_archive (d : Directory) (inv_fp : InvFile)
    (target_filename : option string) (filter_by_measurement : option string)
  : ArchiveRun :=
  let target_filename :=
    match target_filename with
    | None => path_join (inv_dirname inv_fp) "isatab.zip"
    | Some t => t
    end in
  match load inv_fp with
  | Raised e => {| run_result := Raised e; run_archive := None |}
  | Returned ISA =>
      let '(all_files_in_isatab, selected_assays) :=
        collect_files filter_by_measurement ISA in
      let found_files :=
        fold_left (fun found fname => if isfile d fname then found ++ [fname] else found)
                  all_files_in_isatab [] in
      let missing_files :=
        filter (fun f => f ∉ found_files) all_files_in_isatab in
      if (length missing_files =? 0)%nat then
        match write_archive d inv_fp ISA selected_assays all_files_in_isatab [] with
        | (members, Returned names) =>
            {| run_result := Returned (Some names);
               run_archive := Some (target_filename, members) |}
        | (members, Raised e) =>
            {| run_result := Raised e;
               run_archive := Some (target_filename, members) |}
        end
      else {| run_result := Returned None; run_archive := None |}
  end.

End archive.

(** The data files referenced by the selected assays of an investigation. *)
Definition referenced_data_files (filter_by_measurement : option string)
    (ISA : Investigation) : list string :=
  flat_map
    (fun s => flat_map (fun a => map df_filename (data_files a))
                       (select_assays filter_by_measurement s))
    (studies ISA).


(** The members C3 asks for: each study file with the files of the
    selected assays of that same study. *)
Definition study_members (filter_by_measurement : option string) (s : Study)
  : list string :=
  s_filename s :: map a_filename (select_assays filter_by_measurement s).


(** ** [IsaTabAnalyzer.generate_study_design_report] (utils.py, lines 399-507)

    The block run for one study-assay pair, from the merged table on
    (lines 433-463).  The [group_summary] entries, computed afterwards
    inside a [try] that swallows every exception, are not part of it. *)

(** [x.startswith(prefix)] and the slice [x[13:-1]]. *)
Definition startswith (x prefix : string) : bool := String.prefix prefix x.

Definition slice_13_m1 (x : string) : string :=
  String.substring 13 (String.length x - 14) x.

(** [d[k]] on a dict kept in insertion order ([None] for [KeyError]). *)
Fixpoint dict_get {V : Type} (k : string) (d : list (string * V)) : option V :=
  match d with
  | [] => None
  | (k', v) :: d' => if String.eqb k' k then Some v else dict_get k d'
  end.

Section dataframe.

(** The values held by a table, compared by equality when rows are
    deduplicated, and Python's [str] on them. *)
Context {Cell : Type} `{EqDecision Cell}.
Variable str : Cell -> string.

(** A pandas [DataFrame], row by row: the column labels and, for every
    row, one cell per column. *)
Record DataFrame := {
  columns : list string;
  rows : list (list Cell)
}.

Definition rectangular (df : DataFrame) : Prop :=
  Forall (fun r => length r = length (columns df)) (rows df).

(** The positions of the columns labelled [label]. *)
Definition positions_of (cols : list string) (label : string) : list nat :=
  filter (fun j => cols !! j = Some label) (seq 0 (length cols)).

(** [df[labels]]: every label selects all the columns that carry it, in
    the order of [labels]. *)
Definition getitem_columns (df : DataFrame) (labels : list string) : DataFrame :=
  let positions := flat_map (positions_of (columns df)) labels in
  {| columns := omap (fun j => columns df !! j) positions;
     rows := map (fun r => omap (fun j => r !! j) positions) (rows df) |}.

(** [df.drop_duplicates()]: a row equal to an earlier one is dropped. *)
Definition drop_duplicates (df : DataFrame) : DataFrame :=
  {| columns := columns df;
     rows := fold_left (fun kept r => if decide (r ∈ kept) then kept else kept ++ [r])
                       (rows df) [] |}.

(** [try: factor_and_levels = factors_and_levels[x]
     except KeyError: factors_and_levels[x] = set(); ...
     factor_and_levels.add(level)]

    The dict is kept in insertion order. *)
Definition add_level (x level : string) (factors_and_levels : list (string * gset string))
  : list (string * gset string) :=
  if decide (x ∈ factors_and_levels.*1)
  then map (fun kv => if String.eqb kv.1 x then (kv.1, kv.2 ∪ {[level]}) else kv)
           factors_and_levels
  else factors_and_levels ++ [(x, ∅ ∪ {[level]})].

Record StudyGroupReport := {
  total_study_groups : nat;
  factors_and_levels_report : list (string * nat);
  study_group_queries : list string
}.

(** The report keys set when at least one factor column exists; [None]
    when [len(factor_cols) > 0] fails and the keys stay absent. *)
Definition study_group_report (merged_df : DataFrame) : option StudyGroupReport :=
  let factor_cols := filter (fun x => startswith x "Factor Value" = true)
                            (columns merged_df) in
  if (0 <? length factor_cols)%nat then
    let study_group_factors_df :=
      drop_duplicates (getitem_columns merged_df factor_cols) in
    let factors_list := map slice_13_m1 (columns study_group_factors_df) in
    let '(queries, factors_and_levels) :=
      fold_left
        (fun '(queries, factors_and_levels) row =>
           let '(fvs, factors_and_levels) :=
             fold_left
               (fun '(fvs, factors_and_levels) '(x, y) =>
                  (fvs ++ [x +:+ " == " +:+ str y],
                   add_level x (str y) factors_and_levels))
               (zip factors_list row) ([], factors_and_levels) in
           (queries ++ [String.concat " and " fvs], factors_and_levels))
        (rows study_group_factors_df) ([], []) in
    Some {| total_study_groups := length queries;
            factors_and_levels_report :=
              map (fun kv => (kv.1, size kv.2)) factors_and_levels;
            study_group_queries := queries |}
  else None.

(** The positions of the 'Factor Value' columns, each once, and the
    projection of the table onto them. *)
Definition factor_positions (df : DataFrame) : list nat :=
  filter (fun j => from_option (fun c => startswith c "Factor Value") false
                               (columns df !! j) = true)
         (seq 0 (length (columns df))).

Definition factor_projection (df : DataFrame) : list (list Cell) :=
  map (fun r => omap (fun j => r !! j) (factor_positions df)) (rows df).

(** The stringified values occurring in the column at position [j]. *)
Definition column_levels (df : DataFrame) (j : nat) : gset string :=
  list_to_set (omap (fun r => str <$> r !! j) (rows df)).

(** The stringified values occurring in the factor columns whose label,
    sliced by [[13:-1]], is [f]. *)
Definition levels_of_factor (df : DataFrame) (f : string) : gset string :=
  ⋃ map (column_levels df)
        (filter (fun j => slice_13_m1 <$> columns df !! j = Some f)
                (factor_positions df)).

(** The levels gathered for key [k] from a list of (factor, value) pairs. *)
Definition levels_in (k : string) (pairs : list (string * Cell)) : gset string :=
  list_to_set (map (fun xy => str xy.2) (filter (fun xy => xy.1 = k) pairs)).

(** The pairs [(factor, value)] the loops feed to the dict. *)
Definition level_pairs (df : DataFrame) : list (string * Cell) :=
  let sg := drop_duplicates
              (getitem_columns df
                 (filter (fun x => startswith x "Factor Value" = true) (columns df))) in
  flat_map (zip (map slice_13_m1 (columns sg))) (rows sg).

End dataframe.

Arguments DataFrame : clear implicits.


(** ** Python strings and lists, as far as the fixer uses them *)

(** [sub in s] *)
Definition str_in (sub s : string) : bool :=
  match String.index 0 sub s with
  | Some _ => true
  | None => false
  end.

(** [x.endswith(suffix)] *)
Definition endswith (x suffix : string) : bool :=
  (String.length suffix <=? String.length x)%nat
  && String.eqb
       (String.substring (String.length x - String.length suffix)
                         (String.length suffix) x)
       suffix.

(** [s.lower()] on ASCII text. *)
Definition lower_ascii (c : ascii) : ascii :=
  let n := nat_of_ascii c in
  if ((65 <=? n) && (n <=? 90))%nat then ascii_of_nat (n + 32) else c.

Fixpoint lower (s : string) : string :=
  match s with
  | EmptyString => EmptyString
  | String c s' => String (lower_ascii c) (lower s')
  end.

(** [s.rindex(c)] for a one-character [c]; [None] stands for the
    [ValueError] that the callers catch. *)
Fixpoint rindex_char (c : ascii) (s : string) : option nat :=
  match s with
  | EmptyString => None
  | String a s' =>
      match rindex_char c s' with
      | Some n => Some (S n)
      | None => if Ascii.eqb a c then Some 0 else None
      end
  end.

(** [s[k:]] *)
Definition slice_from (k : nat) (s : string) : string :=
  String.substring k (String.length s - k) s.

(** [s.replace(old, new)] for a non-empty [old]: the occurrences are
    replaced from left to right without overlap; [skip] counts the
    characters of a match still to be dropped. *)
Fixpoint replace_from (old new : string) (skip : nat) (s : string) : string :=
  match s with
  | EmptyString => EmptyString
  | String c s' =>
      match skip with
      | S k => replace_from old new k s'
      | O =>
          if String.prefix old s
          then new +:+ replace_from old new (String.length old - 1) s'
          else String c (replace_from old new 0 s')
      end
  end.

Definition str_replace (s old new : string) : string := replace_from old new 0 s.

(** [s.split(sep)] for a one-character separator. *)
Fixpoint split_char (sep : ascii) (s : string) : list string :=
  match s with
  | EmptyString => [EmptyString]
  | String c s' =>
      if Ascii.eqb c sep then EmptyString :: split_char sep s'
      else match split_char sep s' with
           | x :: xs => String c x :: xs
           | [] => [String c EmptyString]
           end
  end.

Definition tab : ascii := ascii_of_nat 9.
Definition double_quote : ascii := ascii_of_nat 34.

(** [len(l)] as a Python integer. *)
Definition len {A : Type} (l : list A) : Z := Z.of_nat (length l).

(** [l.index(x)]: the first position of [x], or [ValueError]. *)
Fixpoint index_from (x : string) (l : list string) (i : Z) : outcome Z :=
  match l with
  | [] => Raised ValueError
  | y :: l' => if String.eqb y x then Returned i else index_from x l' (i + 1)
  end.

Definition list_index (l : list string) (x : string) : outcome Z := index_from x l 0.

(** [l[i]], [l[i] = v] and [del l[i]]: a negative index counts from the
    end, an index out of range raises [IndexError]. *)
Definition normalize_index {A : Type} (l : list A) (i : Z) : outcome nat :=
  let j := (if i <? 0 then i + len l else i)%Z in
  if ((0 <=? j) && (j <? len l))%Z then Returned (Z.to_nat j) else Raised IndexError.

Definition getitem {A : Type} (l : list A) (i : Z) : outcome A :=
  j ← normalize_index l i;
  match l !! j with
  | Some x => Returned x
  | None => Raised IndexError
  end.

Definition setitem {A : Type} (l : list A) (i : Z) (v : A) : outcome (list A) :=
  j ← normalize_index l i; mret (<[j:=v]> l).

Definition delitem {A : Type} (l : list A) (i : Z) : outcome (list A) :=
  j ← normalize_index l i; mret (take j l ++ drop (S j) l).

(** [l.insert(i, x)]: the index is clamped to the list, never an error. *)
Definition list_insert_at {A : Type} (l : list A) (i : Z) (x : A) : list A :=
  let j := (if i <? 0 then Z.max 0 (i + len l) else Z.min i (len l))%Z in
  take (Z.to_nat j) l ++ x :: drop (Z.to_nat j) l.

(** ** [IsaTabFixer.clean_isatab_field_names] (utils.py, lines 590-633) *)

(** [field_name[field_name.rindex('.') + 1:]], unchanged on [ValueError]. *)
Definition after_last_dot (field_name : string) : string :=
  match rindex_char "." field_name with
  | Some k => slice_from (k + 1) field_name
  | None => field_name
  end.

(** One turn of the loop: the value left in [field_names[i]]. *)
Definition clean_field_name (field_name : string) : string :=
  if startswith field_name "Term Source REF" then "Term Source REF"
  else if startswith field_name "Term Accession Number" then "Term Accession Number"
  else if startswith field_name "Unit" then "Unit"
  else if str_in "Characteristics[" field_name then
    if str_in "material type" (lower field_name) then "Material Type"
    else after_last_dot field_name
  else if str_in "Factor Value[" field_name then after_last_dot field_name
  else if str_in "Parameter Value[" field_name then after_last_dot field_name
  else if endswith field_name "Date" then "Date"
  else if endswith field_name "Performer" then "Performer"
  else if str_in "Protocol REF" field_name then "Protocol REF"
  else if startswith field_name "Sample Name." then "Sample Name"
  else field_name.

(** The function rewrites its argument in place and returns that same
    list: after a call, the caller's list is the cleaned one. *)
Definition clean_isatab_field_names (field_names : list string) : list string :=
  map clean_field_name field_names.

(** ** [IsaTabFixer.replace_factor_with_source_characteristic]
       (utils.py, lines 650-738)

    The embedding follows the header of the table: its argument is
    [table_file_df.columns] as [isatab.read_tfile] returned it, its result
    the labels given to the table before it is written back. *)

(** [table_file_df.columns = names]: pandas refuses a list of another
    length. *)
Definition set_columns (width : nat) (names : list string) : outcome (list string) :=
  if (length names =? width)%nat then Returned names else Raised ValueError.

(** The three guards, with Python's short-circuit [and]: an operand is
    evaluated, and can raise, only when those before it hold. *)
Definition has_term_columns (field_names : list string) (factor_index : Z)
  : outcome bool :=
  if (factor_index <? len field_names)%Z then
    x ← getitem field_names (factor_index + 1);
    if str_in "Term Source REF" x then
      y ← getitem field_names (factor_index + 2);
      mret (str_in "Term Accession" y)
    else mret false
  else mret false.

Definition has_unit_term_columns (field_names : list string) (factor_index : Z)
  : outcome bool :=
  if (factor_index <? len field_names)%Z then
    x ← getitem field_names (factor_index + 1);
    if str_in "Unit" x then
      y ← getitem field_names (factor_index + 2);
      if str_in "Term Source REF" y then
        z ← getitem field_names (factor_index + 3);
        mret (str_in "Term Accession" z)
      else mret false
    else mret false
  else mret false.

Definition has_unit_column (field_names : list string) (factor_index : Z)
  : outcome bool :=
  if (factor_index <? len field_names)%Z then
    x ← getitem field_names (factor_index + 1);
    mret (str_in "Unit" x)
  else mret false.

(** The four branches that move the factor column, and its companions,
    behind position [anchor] ([source_name_index] here, [protocol_ref_index]
    in the sibling method): the inserts and deletes with the offsets of
    the source. *)
Definition move_factor_columns (field_names : list string)
    (factor_index anchor : Z) : outcome (list string) :=
  term ← has_term_columns field_names factor_index;
  if (term : bool) then
    x ← getitem field_names factor_index;
    let field_names := list_insert_at field_names (anchor + 1) x in
    x ← getitem field_names (factor_index + 1 + 1);
    let field_names := list_insert_at field_names (anchor + 2) x in
    x ← getitem field_names (factor_index + 2 + 2);
    let field_names := list_insert_at field_names (anchor + 3) x in
    field_names ← delitem field_names (factor_index + 3);
    field_names ← delitem field_names (factor_index + 1 + 2);
    delitem field_names (factor_index + 2 + 1)
  else
    unit_term ← has_unit_term_columns field_names factor_index;
    if (unit_term : bool) then
      x ← getitem field_names factor_index;
      let field_names := list_insert_at field_names (anchor + 1) x in
      x ← getitem field_names (factor_index + 1 + 1);
      let field_names := list_insert_at field_names (anchor + 2) x in
      x ← getitem field_names (factor_index + 2 + 2);
      let field_names := list_insert_at field_names (anchor + 3) x in
      x ← getitem field_names (factor_index + 3 + 3);
      let field_names := list_insert_at field_names (anchor + 4) x in
      field_names ← delitem field_names (factor_index + 4);
      field_names ← delitem field_names (factor_index + 1 + 3);
      field_names ← delitem field_names (factor_index + 2 + 2);
      delitem field_names (factor_index + 3 + 1)
    else
      unit ← has_unit_column field_names factor_index;
      if (unit : bool) then
        x ← getitem field_names factor_index;
        let field_names := list_insert_at field_names (anchor + 1) x in
        x ← getitem field_names (factor_index + 1 + 1);
        let field_names := list_insert_at field_names (anchor + 2) x in
        field_names ← delitem field_names (factor_index + 2);
        delitem field_names (factor_index + 1 + 1)
      else
        x ← getitem field_names factor_index;
        let field_names := list_insert_at field_names (anchor + 1) x in
        delitem field_names factor_index.

(** The renaming that closes both methods: the label behind the anchor
    has 'Factor Value' replaced by [kind], and the labels are cleaned
    again each time they are assigned to the table. *)
Definition rename_moved_column (width : nat) (field_names : list string)
    (anchor : Z) (kind : string) : outcome (list string) :=
  cols ← set_columns width (clean_isatab_field_names field_names);
  let field_names_modified := cols in
  x ← getitem field_names_modified (anchor + 1);
  field_names_modified ←
    setitem field_names_modified (anchor + 1) (str_replace x "Factor Value" kind);
  set_columns width (clean_isatab_field_names field_names_modified).

Definition replace_factor_with_source_characteristic
    (columns : list string) (factor_name : string) : outcome (list string) :=
  let field_names := clean_isatab_field_names columns in
  let clean_field_names := field_names in
  factor_index ← list_index clean_field_names ("Factor Value[" +:+ factor_name +:+ "]");
  source_name_index ← list_index clean_field_names "Source Name";
  field_names ← move_factor_columns field_names factor_index source_name_index;
  rename_moved_column (length columns) field_names source_name_index "Characteristics".

(** ** [IsaTabFixer.replace_factor_with_protocol_parameter_value]
       (utils.py, lines 740-861)

    [tfile] holds the lines of the table file as iterating over the open
    file yields them.  The embedding stops at the renamed header: the
    update of the investigation that follows goes through [isatab.load]
    and [isatab.dump]. *)

(** [lambda x: x[1:-1] if x[0] == '"' and x[-1] == '"' else x] *)
Definition strip_quotes (x : string) : outcome string :=
  match x with
  | EmptyString => Raised IndexError
  | String first _ =>
      if Ascii.eqb first double_quote
         && match String.get (String.length x - 1) x with
            | Some last_char => Ascii.eqb last_char double_quote
            | None => false
            end
      then Returned (String.substring 1 (String.length x - 2) x)
      else Returned x
  end.

(** [list(map(f, l))] for an [f] that may raise. *)
Fixpoint map_outcome {A B : Type} (f : A -> outcome B) (l : list A) : outcome (list B) :=
  match l with
  | [] => Returned []
  | x :: l' => y ← f x; ys ← map_outcome f l'; mret (y :: ys)
  end.

(** Lines 756-761: the position of [protocol_ref] in the first data row. *)
Definition find_protocol_ref (tfile : list string) (protocol_ref : string) : outcome Z :=
  match tfile with
  | [] => Raised StopIteration
  | _ :: [] => Raised StopIteration
  | _ :: line1 :: _ =>
      cells ← map_outcome strip_quotes (split_char tab line1);
      list_index cells protocol_ref
  end.

(** The exception of the guarded branch at lines 763-766. *)
Definition protocol_ref_not_found : exn := IOError.

Definition replace_factor_with_protocol_parameter_value
    (columns : list string) (tfile : list string)
    (factor_name protocol_ref : string) : outcome (list string) :=
  let field_names := clean_isatab_field_names columns in
  let clean_field_names := field_names in
  factor_index ← list_index clean_field_names ("Factor Value[" +:+ factor_name +:+ "]");
  protocol_ref_index ← find_protocol_ref tfile protocol_ref;
  if (protocol_ref_index <? 0)%Z then Raised protocol_ref_not_found
  else
    field_names ← move_factor_columns field_names factor_index protocol_ref_index;
    rename_moved_column (length columns) field_names protocol_ref_index "Parameter Value".


(** ** [IsaTabFixer.fix_factor] and [batch_fix_isatabs]
       (utils.py, lines 549-581 and 635-648) *)

(** The JSON-like values a settings mapping holds. *)
#[warnings="-register-all"]
Inductive pyval : Type :=
  | PyNone
  | PyStr (s : string)
  | PyList (items : list pyval)
  | PyDict (entries : list (string * pyval)).

Definition is_list (v : pyval) : bool :=
  match v with
  | PyList _ => true
  | _ => false
  end.

(** [v[key]] for a string [key]: only a dict can be indexed by a
    string. *)
Definition getitem_str (v : pyval) (key : string) : outcome pyval :=
  match v with
  | PyDict entries =>
      match dict_get key entries with
      | Some x => Returned x
      | None => Raised KeyError
      end
  | PyList _ | PyStr _ | PyNone => Raised TypeError
  end.

Section fixing.

(** The table files on disk, and what the two repair methods do to
    them. *)
Context {World : Type}.
Variable fix_as_source_characteristic :
  string -> pyval -> World -> World * outcome unit.
Variable fix_as_protocol_parameter_value :
  string -> pyval -> pyval -> World -> World * outcome unit.

(** What a batch run leaves behind: the lines printed, the calls of
    [fix_factor] made, and the files. *)
Record FixState := {
  printed : list string;
  fix_calls : list (string * pyval * pyval);
  world : World
}.

Definition fix_factor (table_file_path : string) (factor_name protocol_ref : pyval)
    (st : FixState) : FixState * outcome unit :=
  let st := {| printed := printed st;
               fix_calls := fix_calls st ++ [(table_file_path, factor_name, protocol_ref)];
               world := world st |} in
  let '(w, r) :=
    match protocol_ref with
    | PyNone => fix_as_source_characteristic table_file_path factor_name (world st)
    | _ => fix_as_protocol_parameter_value table_file_path factor_name protocol_ref
             (world st)
    end in
  ({| printed := printed st; fix_calls := fix_calls st; world := w |}, r).

(** One turn of the loop over [settings.keys()]: the arguments of
    [fix_factor] are evaluated before the call. *)
Definition batch_fix_one (settings : list (string * pyval)) (table_file_path : string)
    (st : FixState) : FixState * outcome unit :=
  let st := {| printed := printed st ++ ["Fixing " +:+ table_file_path +:+ "..."];
               fix_calls := fix_calls st; world := world st |} in
  match
    (v ← match dict_get table_file_path settings with
         | Some v => Returned v
         | None => Raised KeyError
         end;
     factor_name ← getitem_str v "factor";
     protocol_ref ← getitem_str v "protocol_ref";
     mret (factor_name, protocol_ref))
  with
  | Returned (factor_name, protocol_ref) =>
      fix_factor table_file_path factor_name protocol_ref st
  | Raised e => (st, Raised e)
  end.

Fixpoint batch_fix_loop (settings : list (string * pyval)) (keys : list string)
    (st : FixState) : FixState * outcome unit :=
  match keys with
  | [] => (st, Returned tt)
  | table_file_path :: keys' =>
      match batch_fix_one settings table_file_path st with
      | (st', Returned _) => batch_fix_loop settings keys' st'
      | (st', Raised e) => (st', Raised e)
      end
  end.

Definition batch_fix_isatabs (settings : list (string * pyval)) (st : FixState)
  : FixState * outcome unit :=
  batch_fix_loop settings settings.*1 st.

End fixing.


(** ** Concrete investigations used to exercise the archive code *)

Definition empty_graph : DiGraph := {| nodes := []; pred := fun _ => [] |}.

Definition mk_assay (filename : string) (files : list string) : Assay :=
  {| a_filename := filename; a_graph := empty_graph;
     measurement_type_term := "metabolite profiling";
     data_files := map (fun f => {| df_filename := f; df_label := "Raw Data File" |}) files |}.

(** A graph in which two samples feed one process, and an investigation
    whose assay table has that graph. *)
Definition pooling_process : Process :=
  {| process_id := "#process/extraction1";
     executes_protocol := {| protocol_name := "extraction" |} |}.

Definition pooling_graph : DiGraph :=
  {| nodes := [NMaterial "sample1"; NMaterial "sample2"; NProcess pooling_process;
               NMaterial "extract1"];
     pred := fun n =>
       match n with
       | NProcess _ => [NMaterial "sample1"; NMaterial "sample2"]
       | NMaterial "extract1" => [NProcess pooling_process]
       | _ => []
       end |}.

Definition pooled_investigation : Investigation :=
  {| studies :=
       [ {| s_filename := "s_pool.txt"; s_graph := empty_graph;
            assays :=
              [ {| a_filename := "a_pool.txt"; a_graph := pooling_graph;
                   measurement_type_term := "metabolite profiling";
                   data_files := [] |} ] |} ] |}.

(** Two studies with one assay each and no data files. *)
Definition two_studies : Investigation :=
  {| studies :=
       [ {| s_filename := "s_first.txt"; s_graph := empty_graph;
            assays := [mk_assay "a_first.txt" []] |};
         {| s_filename := "s_second.txt"; s_graph := empty_graph;
            assays := [mk_assay "a_second.txt" []] |} ] |}.

Definition two_studies_dir : Directory :=
  ["i_Investigation.txt"; "s_first.txt"; "a_first.txt"; "s_second.txt"; "a_second.txt"].




(** A merged table in which two factor columns are sliced to the same
    factor name. *)
Definition collision_table : DataFrame string :=
  {| columns := ["Sample Name"; "Factor Value[dose]"; "Factor Value(dose)"];
     rows := [["s1"; "low"; "1"]; ["s2"; "low"; "2"]; ["s3"; "low"; "1"]] |}.

(** A merged table with two factors and a repeated study group. *)
Definition two_factor_table : DataFrame string :=
  {| columns := ["Sample Name"; "Factor Value[dose]"; "Factor Value[time]"];
     rows := [["s1"; "low"; "1h"]; ["s2"; "high"; "1h"]; ["s3"; "low"; "1h"]] |}.

(** The settings of the usage example in the docstring of
    [batch_fix_isatabs]. *)
Definition example_settings : list (string * pyval) :=
  [ ("/path/to/MTBLS1/s_MTBLS1.txt",
     PyList [ PyDict [("factor", PyStr "Metabolic syndrome"); ("protocol_ref", PyNone)];
              PyDict [("factor", PyStr "Gender");
                      ("protocol_ref", PyStr "Sample collection")] ]);
    ("/path/to/MTBLS2/s_MTBL2.txt",
     PyList [ PyDict [("factor", PyStr "genotype"); ("protocol_ref", PyNone)] ]) ].

(** A study table header whose factor columns have no companion
    columns. *)
Definition plain_factor_header : list string :=
  ["Source Name"; "Characteristics[organism]"; "Protocol REF"; "Sample Name";
   "Factor Value[genotype]"; "Factor Value[replicate]"].

Definition investigation_file : InvFile :=
  {| inv_dirname := "/data/study"; inv_basename := "i_Investigation.txt" |}.


(** * Further functions of the module *)

(** ** [contains] (utils.py, lines 154-170) *)

(** [range(n)] *)
Definition py_range (n : Z) : list Z := map Z.of_nat (seq 0 (Z.to_nat n)).

Section contains.

Context {A : Type} `{EqDecision A}.

(** The inner loop [for j in range(len(small_list))] at offset [i]:
    [Returned false] stands for [break], [Returned true] for the [else]
    clause of the loop. *)
Fixpoint compare_from (big_list small_list : list A) (i : Z) (js : list nat)
  : outcome bool :=
  match js with
  | [] => Returned true
  | j :: js' =>
      x ← getitem big_list (i + Z.of_nat j);
      y ← getitem small_list (Z.of_nat j);
      if decide (x <> y) then Returned false
      else compare_from big_list small_list i js'
  end.

(** The outer loop over the candidate offsets; [None] when it is
    exhausted. *)
Fixpoint contains_loop (big_list small_list : list A) (offsets : list Z)
  : outcome (option (Z * Z)) :=
  match offsets with
  | [] => Returned None
  | i :: offsets' =>
      matched ← compare_from big_list small_list i (seq 0 (length small_list));
      if (matched : bool) then Returned (Some (i, (i + len small_list)%Z))
      else contains_loop big_list small_list offsets'
  end.

(** The function returns [False] ([None] here) or the pair
    [(i, i + len(small_list))]. *)
Definition contains (small_list big_list : list A) : outcome (option (Z * Z)) :=
  if (len small_list =? 0)%Z then Returned None
  else contains_loop big_list small_list
         (py_range (len big_list - len small_list + 1)).

(** The slice [big_list[k:k + len(small_list)]] equals [small_list]. *)
Definition occurs_at (small_list big_list : list A) (k : nat) : Prop :=
  take (length small_list) (drop k big_list) = small_list.

#[global] Instance occurs_at_dec (small_list big_list : list A) (k : nat) :
  Decision (occurs_at small_list big_list k).
Proof. unfold occurs_at. apply _. Defined.

End contains.

(** ** [squashstr] and [pyvar] (utils.py, lines 235-253) *)




(** [ch.isalpha() or ch.isdigit()] on ASCII characters. *)
Definition is_alnum (c : ascii) : bool :=
  let n := nat_of_ascii c in
  (((48 <=? n) && (n <=? 57)) || ((65 <=? n) && (n <=? 90))
   || ((97 <=? n) && (n <=? 122)))%nat.

(** [for ch in string: ... string = string.replace(ch, '_')]: the loop
    runs over the characters of the argument while the variable is
    rebound to the replaced string. *)
Definition pyvar (s : string) : string :=
  fold_left
    (fun cur ch =>
       if is_alnum ch then cur
       else str_replace cur (String ch EmptyString) "_")
    (list_ascii_of_string s) s.

(** What [pyvar] does to one character. *)
Definition pyvar_char (c : ascii) : ascii :=
  if is_alnum c then c else "_"%char.

Fixpoint string_map (f : ascii -> ascii) (s : string) : string :=
  match s with
  | EmptyString => EmptyString
  | String c s' => String (f c) (string_map f s')
  end.

Fixpoint string_forall (P : ascii -> bool) (s : string) : bool :=
  match s with
  | EmptyString => true
  | String c s' => P c && string_forall P s'
  end.

Fixpoint string_filter (P : ascii -> bool) (s : string) : string :=
  match s with
  | EmptyString => EmptyString
  | String c s' => if P c then String c (string_filter P s') else string_filter P s'
  end.

(** The string held by the loop of [pyvar] once the characters [seen]
    have been visited, one character at a time. *)
Definition masked (seen : list ascii) (c : ascii) : ascii :=
  if negb (is_alnum c) && existsb (Ascii.eqb c) seen then "_"%char else c.

(** ** The column renaming of [factor_query_isatab] (utils.py, lines
       321-328), repeated inside the query loop of
       [generate_study_design_report] (lines 466-472)

    [columns = recast_columns(columns=columns)
     for i, column in enumerate(columns):
         columns[i] = pyvar(column) if column.startswith('Factor Value[')
                      else column] *)
Definition factor_query_columns (columns : list string) : list string :=
  map (fun column => if startswith column "Factor Value[" then pyvar column else column)
      (recast_columns columns).

(** ** [IsaTabFixer.remove_unused_protocols] (utils.py, lines 863-894)

    The attributes of a study that the method reads: the declared
    protocols, the processes of the study table and those of every assay
    table.  Loading and dumping the investigation go through [isatab]. *)
Record ProtocolStudy := {
  ps_protocols : list Protocol;
  ps_process_sequence : list Process;
  ps_assay_process_sequences : list (list Process)
}.

(** [try: unused_protocol_names.remove(process.executes_protocol.name)
     except KeyError: pass] *)
Definition discard_executed (unused_protocol_names : gset string) (process : Process)
  : gset string :=
  let name := protocol_name (executes_protocol process) in
  if decide (name ∈ unused_protocol_names)
  then unused_protocol_names ∖ {[name]}
  else unused_protocol_names.

(** The body of the loop over the studies: the value given to
    [study.protocols]. *)
Definition clean_protocols (study : ProtocolStudy) : list Protocol :=
  let unused_protocol_names : gset string :=
    list_to_set (map protocol_name (ps_protocols study)) in
  let unused_protocol_names :=
    fold_left discard_executed (ps_process_sequence study) unused_protocol_names in
  let unused_protocol_names :=
    fold_left (fun unused process_sequence =>
                 fold_left discard_executed process_sequence unused)
              (ps_assay_process_sequences study) unused_protocol_names in
  fold_left
    (fun clean_protocols_list protocol =>
       if decide (protocol_name protocol ∉ unused_protocol_names)
       then clean_protocols_list ++ [protocol]
       else clean_protocols_list)
    (ps_protocols study) [].

Definition remove_unused_protocols (studies : list ProtocolStudy) : list ProtocolStudy :=
  map (fun study =>
         {| ps_protocols := clean_protocols study;
            ps_process_sequence := ps_process_sequence study;
            ps_assay_process_sequences := ps_assay_process_sequences study |})
      studies.

(** The names of the protocols executed by a process of the study table
    or of one of its assay tables. *)
Definition executed_names (study : ProtocolStudy) : list string :=
  map (fun process => protocol_name (executes_protocol process))
      (ps_process_sequence study ++ concat (ps_assay_process_sequences study)).

(** ** The totals of [IsaTabAnalyzer.compute_stats] (utils.py, lines
       523-533)

    [reduce(lambda x, y: len(x.assays) + len(y.assays), isa.studies)]:
    [reduce] hands the function the value accumulated so far, which is a
    study object at the first call and an integer afterwards. *)
Inductive stat_value : Type :=
  | StatStudy (s : Study)
  | StatInt (n : Z).

(** [TypeError], raised by [reduce] on an empty sequence without initial
    value, and [AttributeError], raised by [x.assays] on an integer. *)
Inductive stat_exn : Type :=
  | ReduceEmptyTypeError
  | IntAttributeError.

Inductive stat_outcome : Type :=
  | StatReturned (v : stat_value)
  | StatRaised (e : stat_exn).

(** [lambda x, y: len(x.assays) + len(y.assays)] *)
Definition add_assay_counts (x y : stat_value) : stat_outcome :=
  match x with
  | StatInt _ => StatRaised IntAttributeError
  | StatStudy sx =>
      match y with
      | StatInt _ => StatRaised IntAttributeError
      | StatStudy sy => StatReturned (StatInt (len (assays sx) + len (assays sy)))
      end
  end.

(** [functools.reduce(function, sequence)] *)
Definition py_reduce (function : stat_value -> stat_value -> stat_outcome)
    (sequence : list stat_value) : stat_outcome :=
  match sequence with
  | [] => StatRaised ReduceEmptyTypeError
  | first :: rest =>
      fold_left
        (fun accumulated y =>
           match accumulated with
           | StatReturned x => function x y
           | StatRaised e => StatRaised e
           end)
        rest (StatReturned first)
  end.

(** The value formatted into the line 'Total study assays: ...'. *)
Definition total_study_assays (isa : Investigation) : stat_outcome :=
  py_reduce add_assay_counts (map StatStudy (studies isa)).

(** A settings mapping in the shape [batch_fix_isatabs] indexes: every
    table file path maps to one dict with the keys 'factor' and
    'protocol_ref'. *)
Definition well_formed_settings : list (string * pyval) :=
  [ ("/path/to/MTBLS1/s_MTBLS1.txt",
     PyDict [("factor", PyStr "Gender"); ("protocol_ref", PyStr "Sample collection")]);
    ("/path/to/MTBLS2/s_MTBL2.txt",
     PyDict [("factor", PyStr "genotype"); ("protocol_ref", PyNone)]) ].

(** The three branches of the fixer methods that find companion columns
    [cs] behind the factor column, by the guards that select them. *)
Definition companion_branch (field_names : list string) (factor_index : Z)
    (cs : list string) : Prop :=
  (length cs = 2%nat /\
   has_term_columns field_names factor_index = Returned true)
  \/ (length cs = 3%nat /\
      has_term_columns field_names factor_index = Returned false /\
      has_unit_term_columns field_names factor_index = Returned true)
  \/ (length cs = 1%nat /\
      has_term_columns field_names factor_index = Returned false /\
      has_unit_term_columns field_names factor_index = Returned false /\
      has_unit_column field_names factor_index = Returned true).

(** A study table header with a factor of each kind, as pandas labels
    it, and the first lines of a table file. *)
Definition annotated_header : list string :=
  ["Source Name"; "Characteristics[organism]"; "Term Source REF";
   "Term Accession Number"; "Protocol REF"; "Sample Name";
   "Factor Value[Gender]"; "Term Source REF"; "Term Accession Number";
   "Factor Value[dose]"; "Unit"; "Term Source REF"; "Term Accession Number";
   "Factor Value[age]"; "Unit"; "Comment[x]"].

Definition newline : ascii := ascii_of_nat 10.

Definition annotated_tfile : list string :=
  [ "Source Name" +:+ String tab ("Characteristics[organism]"
      +:+ String newline EmptyString);
    "source1" +:+ String tab ("Homo sapiens" +:+ String tab ("NCBITaxon"
      +:+ String tab ("9606" +:+ String tab ("Sample collection"
      +:+ String tab ("sample1" +:+ String newline EmptyString))))) ].

(** ** [pyisatabify] (utils.py, lines 272-313) *)










(** ** [format_report_csv] (utils.py, lines 35-53) *)

Section report_csv.

(** The values held by a validation report and ['{}'.format] on them. *)
Context {Value : Type}.
Variable format_value : Value -> string.

(** An entry of [report['warnings']] or [report['errors']] and the
    report itself, with the keys the validator writes. *)
Record ReportEntry := {
  entry_code : Value;
  entry_message : Value;
  entry_supplemental : Value
}.

Record ValidationReport := {
  validation_finished : bool;
  report_warnings : list ReportEntry;
  report_errors : list ReportEntry
}.

(** ['{},{},{}\n'.format(e['code'], e['message'], e['supplemental'])] *)
Definition format_entry (e : ReportEntry) : string :=
  format_value (entry_code e) +:+ "," +:+ format_value (entry_message e) +:+ ","
  +:+ format_value (entry_supplemental e) +:+ String newline "".

Definition format_report_csv (report : ValidationReport) : string :=
  let output := "" in
  let output :=
    if validation_finished report
    then "Validation=success" +:+ String newline ""
    else output in
  let output :=
    fold_left (fun output warning => output +:+ format_entry warning)
              (report_warnings report) output in
  let output :=
    fold_left (fun output error => output +:+ format_entry error)
              (report_errors report) output in
  output.

End report_csv.

Arguments ReportEntry : clear implicits.
Arguments ValidationReport : clear implicits.

(** * Theorems *)

Section recast.

Lemma recast_step_compose (x : string) :
  (let a := if String.eqb x "Material Type"
            then "Characteristics[Material Type]" else x in
   let b := if String.eqb a "Date" then "Parameter Value[Date]" else a in
   if String.eqb b "Performer" then "Parameter Value[Performer]" else b)
  = recast_one x.
Proof.
  unfold recast_one; cbv zeta.
  destruct (String.eqb_spec x "Material Type") as [->|Hm]; [reflexivity|].
  destruct (String.eqb_spec x "Date") as [->|Hd]; [reflexivity|].
  reflexivity.
Qed.

(** C8. [recast_columns] keeps the length and the order of its argument:
    position by position, 'Material Type' becomes
    'Characteristics[Material Type]', 'Date' becomes 'Parameter Value[Date]',
    'Performer' becomes 'Parameter Value[Performer]', and every other column
    name is returned unchanged. *)
Theorem recast_columns_pointwise (columns : list string) :
  length (recast_columns columns) = length columns /\
  forall i, recast_columns columns !! i = recast_one <$> columns !! i.
Proof.
  assert (Heq : recast_columns columns = map recast_one columns).
  { unfold recast_columns, casting_map; simpl.
    rewrite !map_map. apply map_ext. intros x. apply recast_step_compose. }
  rewrite Heq. split; [apply length_map|].
  intros i. apply list_lookup_fmap.
Qed.

End recast.

(** ** Process pooling *)

Section pooling.

Lemma fold_left_app_acc {A B : Type} (f : B -> list A) (l : list B) (acc : list A) :
  fold_left (fun r x => r ++ f x) l acc = acc ++ flat_map f l.
Proof.
  revert acc. induction l as [|x l IH]; intros acc; simpl.
  - by rewrite app_nil_r.
  - by rewrite IH, app_assoc.
Qed.

Lemma fold_left_ext_acc {A B : Type} (f g : A -> B -> A) (l : list B) (a : A) :
  (forall a b, f a b = g a b) -> fold_left f l a = fold_left g l a.
Proof.
  intros H. revert a. induction l as [|x l IH]; intros a; simpl; [done|].
  by rewrite H, IH.
Qed.

Lemma flat_map_omap_process (G : DiGraph) (l : list node) :
  flat_map (fun p => pooling_entry G (NProcess p)) (omap as_process l)
  = flat_map (pooling_entry G) l.
Proof.
  induction l as [|n l IH]; [done|].
  destruct n as [p| |]; simpl; [f_equal|..]; exact IH.
Qed.

Lemma detect_graph_flat_map (G : DiGraph) :
  detect_graph_process_pooling G = flat_map (pooling_entry G) (nodes G).
Proof.
  unfold detect_graph_process_pooling.
  rewrite <- flat_map_omap_process.
  rewrite <- (app_nil_l (flat_map _ _)), <- fold_left_app_acc.
  apply fold_left_ext_acc. intros report p. simpl.
  destruct (Nat.ltb_spec 1 (length (in_edges G (NProcess p)))).
  - by rewrite decide_True.
  - rewrite decide_False by lia. by rewrite app_nil_r.
Qed.

(** C2. [detect_graph_process_pooling G] is the list, in node-enumeration
    order, of the ids of the nodes of [G] that are processes with strictly
    more than one incoming edge: every such node contributes its id once,
    and a node that is not a process or has at most one incoming edge
    contributes nothing. *)
Theorem detect_graph_process_pooling_spec (G : DiGraph) :
  detect_graph_process_pooling G
  = map process_id
      (omap as_process
         (filter (fun n => is_Some (as_process n) /\ 1 < length (in_edges G n))
                 (nodes G))).
Proof.
  rewrite detect_graph_flat_map.
  induction (nodes G) as [|n l IH]; [done|].
  rewrite filter_cons. simpl.
  destruct n as [p|name|fname]; simpl.
  - destruct (decide (1 < length (in_edges G (NProcess p)))) as [Hlt|Hge].
    + rewrite decide_True by (split; [by eexists|done]). simpl. by rewrite IH.
    + rewrite decide_False by (intros [_ ?]; done). by rewrite IH.
  - exact IH.
  - exact IH.
Qed.

Lemma table_entry_alt (filename : string) (G : DiGraph) (report : list (string * list string)) :
  (if (0 <? length (detect_graph_process_pooling G))%nat
   then report ++ [(filename, detect_graph_process_pooling G)] else report)
  = report ++ table_entry filename G.
Proof.
  unfold table_entry. destruct (detect_graph_process_pooling G); simpl.
  - by rewrite app_nil_r.
  - done.
Qed.

(** C7. For an investigation that [isatab.load] returns, the report of
    [detect_isatab_process_pooling] lists, for the tables in load order
    (each study followed by its own assays), the entry
    [{filename: pooling_list}] of every table whose pooling list is not
    empty and nothing for the others; so an entry is in the report if and
    only if it is the non-empty pooling list of a study or assay table. *)
Theorem detect_isatab_process_pooling_spec
    (load : InvFile -> outcome Investigation) (fp : InvFile) (ISA : Investigation) :
  load fp = Returned ISA ->
  detect_isatab_process_pooling load fp
  = Returned (flat_map (fun t => table_entry t.1 t.2) (tables_in_load_order ISA))
  /\ forall filename pooling_list,
       (filename, pooling_list)
         ∈ flat_map (fun t => table_entry t.1 t.2) (tables_in_load_order ISA) <->
       pooling_list <> [] /\
       exists G, (filename, G) ∈ tables_in_load_order ISA /\
                 detect_graph_process_pooling G = pooling_list.
Proof.
  intros Hload.
  assert (Heq : detect_isatab_process_pooling load fp
    = (ISA ← load fp;
       mret (flat_map (fun t => table_entry t.1 t.2) (tables_in_load_order ISA)))).
  { unfold detect_isatab_process_pooling. rewrite Hload. simpl.
    f_equal. unfold tables_in_load_order.
    match goal with
    | |- fold_left ?f ?l [] = _ =>
        enough (Hacc : forall acc, fold_left f l acc
                  = acc ++ flat_map (fun t => table_entry t.1 t.2)
                      (flat_map (fun s => (s_filename s, s_graph s)
                         :: map (fun a => (a_filename a, a_graph a)) (assays s)) l))
          by apply (Hacc [])
    end.
    induction (studies ISA) as [|s l IH]; intros acc; simpl.
    - by rewrite app_nil_r.
    - rewrite table_entry_alt.
      rewrite (fold_left_ext_acc _
        (fun r a => r ++ table_entry (a_filename a) (a_graph a)))
        by (intros; apply table_entry_alt).
      rewrite fold_left_app_acc, IH.
      rewrite flat_map_app, <- !app_assoc. do 3 f_equal.
      induction (assays s) as [|a la IHa]; simpl; [done|]. by rewrite IHa. }
  split; [by rewrite Heq, Hload|].
  intros filename pooling_list. rewrite list_elem_of_In, in_flat_map. split.
  - intros [[f G] [Hin Hent]]. apply list_elem_of_In in Hin, Hent.
    unfold table_entry in Hent. simpl in Hent.
    destruct (detect_graph_process_pooling G) as [|x pl] eqn:Hpl.
    + by apply elem_of_nil in Hent.
    + apply list_elem_of_singleton in Hent. injection Hent as -> ->.
      split; [done|]. by exists G.
  - intros [Hne (G & Hin & Hpl)]. exists (filename, G).
    split; [by apply list_elem_of_In|]. apply list_elem_of_In.
    unfold table_entry. simpl. rewrite Hpl.
    destruct pooling_list; [done|]. by apply list_elem_of_singleton.
Qed.

End pooling.

(** ** Archives *)

Section archives.

Variable load : InvFile -> outcome Investigation.
Variable d : Directory.








End archives.

(** ** Study design report *)

Section study_groups.

Context {Cell : Type} `{EqDecision Cell}.
Variable str : Cell -> string.

Implicit Types (df : DataFrame Cell) (r : list Cell).

(** *** Deduplication keeps one copy of every row *)

Lemma drop_duplicates_acc (l kept : list (list Cell)) :
  NoDup kept ->
  NoDup (fold_left (fun kept r => if decide (r ∈ kept) then kept else kept ++ [r]) l kept)
  /\ forall r,
       r ∈ fold_left (fun kept r => if decide (r ∈ kept) then kept else kept ++ [r]) l kept
       <-> r ∈ kept \/ r ∈ l.
Proof.
  revert kept. induction l as [|x l IH]; intros kept Hnd; simpl.
  - split; [done|]. intros r. rewrite elem_of_nil. tauto.
  - destruct (decide (x ∈ kept)) as [Hin|Hnin].
    + destruct (IH kept Hnd) as [Hnd' Hel]. split; [done|].
      intros r. rewrite Hel, elem_of_cons. split; [tauto|].
      intros [?|[->|?]]; tauto.
    + assert (Hnd2 : NoDup (kept ++ [x])).
      { apply NoDup_app. split; [done|]. split; [|apply NoDup_singleton].
        intros y Hy ->%list_elem_of_singleton. done. }
      destruct (IH _ Hnd2) as [Hnd' Hel]. split; [done|].
      intros r. rewrite Hel, elem_of_app, list_elem_of_singleton, elem_of_cons. tauto.
Qed.

Lemma drop_duplicates_length df :
  length (rows (drop_duplicates df)) = length (remove_dups (rows df)).
Proof.
  unfold drop_duplicates. simpl.
  destruct (drop_duplicates_acc (rows df) [] (NoDup_nil_2)) as [Hnd Hel].
  apply Permutation_length, NoDup_Permutation; [done|apply NoDup_remove_dups|].
  intros r. rewrite Hel, elem_of_remove_dups, elem_of_nil. tauto.
Qed.

Lemma drop_duplicates_elem_of df r :
  r ∈ rows (drop_duplicates df) <-> r ∈ rows df.
Proof.
  unfold drop_duplicates. simpl.
  destruct (drop_duplicates_acc (rows df) [] (NoDup_nil_2)) as [_ Hel].
  rewrite Hel, elem_of_nil. tauto.
Qed.

(** Two projections that identify the same rows have the same number of
    distinct images. *)
Lemma length_remove_dups_kernel {A B C : Type} `{EqDecision B} `{EqDecision C}
    (f : A -> B) (g : A -> C) (l : list A) :
  (forall x y, x ∈ l -> y ∈ l -> f x = f y <-> g x = g y) ->
  length (remove_dups (map f l)) = length (remove_dups (map g l)).
Proof.
  induction l as [|a l IH]; intros Hker; [done|].
  assert (IH' : length (remove_dups (map f l)) = length (remove_dups (map g l))).
  { apply IH. intros x y Hx Hy. apply Hker; by apply list_elem_of_further. }
  assert (Hmem : f a ∈ map f l <-> g a ∈ map g l).
  { rewrite !list_elem_of_fmap. split; intros (y & Hy & Hin); exists y; (split; [|done]).
    - apply Hker; [apply list_elem_of_here|by apply list_elem_of_further|done].
    - apply Hker; [apply list_elem_of_here|by apply list_elem_of_further|done]. }
  simpl. destruct (decide_rel _ (f a) _) as [Hf|Hf];
    destruct (decide_rel _ (g a) _) as [Hg|Hg]; simpl; try tauto.
  by rewrite IH'.
Qed.

(** *** The label selection of pandas against the positional projection *)

Lemma elem_of_positions_of (cols : list string) (label : string) (j : nat) :
  j ∈ positions_of cols label <-> cols !! j = Some label.
Proof.
  unfold positions_of. rewrite list_elem_of_filter, elem_of_seq. split; [tauto|].
  intros Hj. split; [done|]. apply lookup_lt_Some in Hj. lia.
Qed.

Lemma elem_of_selected_positions df (j : nat) :
  j ∈ flat_map (positions_of (columns df))
       (filter (fun x => startswith x "Factor Value" = true) (columns df))
  <-> j ∈ factor_positions df.
Proof.
  rewrite list_elem_of_In, in_flat_map. unfold factor_positions.
  rewrite list_elem_of_filter, elem_of_seq. split.
  - intros (label & Hlabel%list_elem_of_In & Hj%list_elem_of_In).
    apply list_elem_of_filter in Hlabel as [Hfv _].
    apply elem_of_positions_of in Hj. rewrite Hj. simpl. split; [done|].
    apply lookup_lt_Some in Hj. lia.
  - intros [Hfv _]. destruct (columns df !! j) as [c|] eqn:Hc; [|done].
    exists c. simpl in Hfv. split; apply list_elem_of_In.
    + apply list_elem_of_filter. split; [done|]. by eapply list_elem_of_lookup_2.
    + by apply elem_of_positions_of.
Qed.

Lemma factor_positions_lt df (j : nat) :
  j ∈ factor_positions df -> j < length (columns df).
Proof.
  unfold factor_positions. rewrite list_elem_of_filter, elem_of_seq. lia.
Qed.

(** On rows that have a cell at every listed position, the projections
    agree exactly when the rows agree at each position. *)
Lemma omap_lookup_eq_iff (r1 r2 : list Cell) (p : list nat) :
  (forall j, j ∈ p -> j < length r1) ->
  (forall j, j ∈ p -> j < length r2) ->
  omap (fun j => r1 !! j) p = omap (fun j => r2 !! j) p
  <-> forall j, j ∈ p -> r1 !! j = r2 !! j.
Proof.
  induction p as [|i p IH]; intros H1 H2.
  - split; [|done]. intros _ j Hj. by apply elem_of_nil in Hj.
  - destruct (lookup_lt_is_Some_2 r1 i) as [c1 Hc1]; [apply H1, list_elem_of_here|].
    destruct (lookup_lt_is_Some_2 r2 i) as [c2 Hc2]; [apply H2, list_elem_of_here|].
    simpl. rewrite Hc1, Hc2. simpl.
    assert (IH' := IH (fun j Hj => H1 j (list_elem_of_further _ _ _ Hj))
                      (fun j Hj => H2 j (list_elem_of_further _ _ _ Hj))).
    split.
    + intros [= -> Hrest] j [->|Hj]%elem_of_cons; [congruence|].
      by apply IH'.
    + intros Hall. f_equal.
      * pose proof (Hall i (list_elem_of_here _ _)). congruence.
      * apply IH'. intros j Hj. apply Hall. by apply list_elem_of_further.
Qed.

Lemma projection_kernel df (p q : list nat) (r1 r2 : list Cell) :
  (forall j, j ∈ p <-> j ∈ q) ->
  (forall j, j ∈ q -> j < length (columns df)) ->
  length r1 = length (columns df) -> length r2 = length (columns df) ->
  omap (fun j => r1 !! j) p = omap (fun j => r2 !! j) p
  <-> omap (fun j => r1 !! j) q = omap (fun j => r2 !! j) q.
Proof.
  intros Hpq Hlt Hr1 Hr2.
  rewrite !omap_lookup_eq_iff;
    try (intros j Hj; first [rewrite Hr1|rewrite Hr2]; apply Hlt; by apply Hpq);
    try (intros j Hj; first [rewrite Hr1|rewrite Hr2]; by apply Hlt).
  split; intros Hall j Hj; apply Hall; by apply Hpq.
Qed.

(** *** The two loops, one state component at a time *)

Lemma levels_loop_row (l : list (string * Cell))
    (fvs : list string) (fal : list (string * gset string)) :
  fold_left
    (fun '(fvs, factors_and_levels) '(x, y) =>
       (fvs ++ [x +:+ " == " +:+ str y], add_level x (str y) factors_and_levels))
    l (fvs, fal)
  = (fvs ++ map (fun xy => xy.1 +:+ " == " +:+ str xy.2) l,
     fold_left (fun fal xy => add_level xy.1 (str xy.2) fal) l fal).
Proof.
  revert fvs fal. induction l as [|[x y] l IH]; intros fvs fal; simpl.
  - by rewrite app_nil_r.
  - by rewrite IH, <- app_assoc.
Qed.

Lemma levels_loop_rows (factors_list : list string) (rs : list (list Cell))
    (queries : list string) (fal : list (string * gset string)) :
  fold_left
    (fun '(queries, factors_and_levels) row =>
       let '(fvs, factors_and_levels) :=
         fold_left
           (fun '(fvs, factors_and_levels) '(x, y) =>
              (fvs ++ [x +:+ " == " +:+ str y],
               add_level x (str y) factors_and_levels))
           (zip factors_list row) ([], factors_and_levels) in
       (queries ++ [String.concat " and " fvs], factors_and_levels))
    rs (queries, fal)
  = (queries ++ map (fun row => String.concat " and "
                       (map (fun xy => xy.1 +:+ " == " +:+ str xy.2)
                            (zip factors_list row))) rs,
     fold_left (fun fal xy => add_level xy.1 (str xy.2) fal)
               (flat_map (zip factors_list) rs) fal).
Proof.
  revert queries fal. induction rs as [|row rs IH]; intros queries fal; simpl.
  - by rewrite app_nil_r.
  - rewrite levels_loop_row. simpl. rewrite IH, <- app_assoc, fold_left_app. done.
Qed.

Lemma study_group_report_unfold df :
  let factor_cols :=
    filter (fun x => startswith x "Factor Value" = true) (columns df) in
  let sg := drop_duplicates (getitem_columns df factor_cols) in
  let factors_list := map slice_13_m1 (columns sg) in
  study_group_report str df
  = if (0 <? length factor_cols)%nat then
      Some {| total_study_groups := length (rows sg);
              factors_and_levels_report :=
                map (fun kv => (kv.1, size kv.2))
                    (fold_left (fun fal xy => add_level xy.1 (str xy.2) fal)
                               (flat_map (zip factors_list) (rows sg)) []);
              study_group_queries :=
                map (fun row => String.concat " and "
                       (map (fun xy => xy.1 +:+ " == " +:+ str xy.2)
                            (zip factors_list row))) (rows sg) |}
    else None.
Proof.
  intros factor_cols sg factors_list. unfold study_group_report.
  fold factor_cols. destruct (0 <? length factor_cols)%nat; [|done].
  fold sg. fold factors_list. rewrite levels_loop_rows. simpl.
  by rewrite length_map.
Qed.

(** C5. When the merged table has a column whose name starts with
    'Factor Value', the report's 'total_study_groups' is the number of
    distinct rows of the projection of the table onto its 'Factor Value'
    columns. *)
Theorem total_study_groups_distinct_rows (merged_df : DataFrame Cell) :
  rectangular merged_df ->
  Exists (fun c => startswith c "Factor Value" = true) (columns merged_df) ->
  exists report,
    study_group_report str merged_df = Some report /\
    total_study_groups report
    = length (remove_dups (factor_projection merged_df)).
Proof.
  intros Hrect Hex. rewrite study_group_report_unfold.
  set (factor_cols := filter _ (columns merged_df)).
  assert (Hpos : (0 <? length factor_cols)%nat = true).
  { apply Nat.ltb_lt. destruct (proj1 (Exists_exists _ _) Hex) as (c & Hc & Hfv).
    assert (Hin : c ∈ factor_cols) by (apply list_elem_of_filter; done).
    destruct factor_cols; [by apply elem_of_nil in Hin|simpl; lia]. }
  rewrite Hpos. eexists. split; [reflexivity|]. cbn [total_study_groups].
  rewrite drop_duplicates_length. cbn [getitem_columns rows]. unfold factor_projection.
  apply length_remove_dups_kernel. intros r1 r2 Hr1 Hr2.
  pose proof (proj1 (Forall_forall _ _) Hrect) as Hlen.
  apply (projection_kernel merged_df).
  - apply elem_of_selected_positions.
  - apply factor_positions_lt.
  - by apply Hlen.
  - by apply Hlen.
Qed.

End study_groups.

Section levels.

Context {Cell : Type} `{EqDecision Cell}.
Variable str : Cell -> string.

Implicit Types (df : DataFrame Cell) (r : list Cell).

(** *** The dict of level sets *)

Lemma dict_get_app {V : Type} (k : string) (d1 d2 : list (string * V)) :
  dict_get k (d1 ++ d2) = match dict_get k d1 with Some v => Some v | None => dict_get k d2 end.
Proof.
  induction d1 as [|[k' v] d1 IH]; simpl; [done|].
  by destruct (String.eqb k' k).
Qed.

Lemma dict_get_None_keys {V : Type} (k : string) (d : list (string * V)) :
  dict_get k d = None <-> k ∉ d.*1.
Proof.
  induction d as [|[k' v] d IH]; simpl.
  - split; [intros _; apply not_elem_of_nil|done].
  - rewrite not_elem_of_cons. destruct (String.eqb_spec k' k) as [->|Hne].
    + split; [done|]. intros [? _]. done.
    + rewrite IH. split; [intros ?; split; [congruence|done]|tauto].
Qed.

Lemma dict_get_fmap {V W : Type} (g : V -> W) (k : string) (d : list (string * V)) :
  dict_get k (map (fun kv => (kv.1, g kv.2)) d) = g <$> dict_get k d.
Proof.
  induction d as [|[k' v] d IH]; simpl; [done|].
  by destruct (String.eqb k' k).
Qed.

Lemma dict_get_update (k x level : string) (fal : list (string * gset string)) :
  dict_get k (map (fun kv => if String.eqb kv.1 x then (kv.1, kv.2 ∪ {[level]}) else kv) fal)
  = (fun v => if decide (k = x) then v ∪ {[level]} else v) <$> dict_get k fal.
Proof.
  induction fal as [|[k' v] fal IH]; simpl; [done|].
  destruct (String.eqb_spec k' x) as [->|Hx]; simpl.
  - destruct (String.eqb_spec x k) as [->|Hk]; simpl.
    + by rewrite decide_True.
    + exact IH.
  - destruct (String.eqb_spec k' k) as [->|Hk]; simpl.
    + by rewrite decide_False.
    + exact IH.
Qed.

Lemma dict_get_add_level (k x level : string) (fal : list (string * gset string)) :
  dict_get k (add_level x level fal)
  = if decide (k = x) then Some (default ∅ (dict_get x fal) ∪ {[level]})
    else dict_get k fal.
Proof.
  unfold add_level. destruct (decide (x ∈ fal.*1)) as [Hin|Hnin].
  - rewrite dict_get_update. destruct (decide (k = x)) as [->|Hne].
    + destruct (dict_get x fal) as [v|] eqn:Hv; [done|].
      by apply dict_get_None_keys in Hv.
    + by destruct (dict_get k fal).
  - rewrite dict_get_app. apply dict_get_None_keys in Hnin.
    destruct (decide (k = x)) as [->|Hne].
    + by rewrite Hnin; simpl; rewrite String.eqb_refl.
    + destruct (dict_get k fal); [done|]. simpl.
      destruct (String.eqb_spec x k); [congruence|done].
Qed.

Lemma dict_get_levels_fold (k : string) (pairs : list (string * Cell))
    (fal : list (string * gset string)) :
  dict_get k (fold_left (fun fal xy => add_level xy.1 (str xy.2) fal) pairs fal)
  = if decide (k ∈ pairs.*1)
    then Some (default ∅ (dict_get k fal) ∪ levels_in str k pairs)
    else dict_get k fal.
Proof.
  revert fal. induction pairs as [|[x y] pairs IH]; intros fal.
  - done.
  - cbn [fold_left]. rewrite IH, dict_get_add_level, fmap_cons.
    unfold levels_in. rewrite filter_cons. cbn [fst snd].
    destruct (decide (k = x)) as [->|Hne].
    + rewrite (decide_True (P := x ∈ x :: _)) by apply list_elem_of_here.
      rewrite (decide_True (P := x = x)) by done. cbn [map].
      destruct (decide (x ∈ pairs.*1)) as [Hin|Hnin]; f_equal.
      * rewrite list_to_set_cons. cbn [default snd]. by rewrite (assoc_L (∪)).
      * assert (Hnil : filter (fun xy : string * Cell => xy.1 = x) pairs = []).
        { apply elem_of_nil_inv. intros [x' y'] [Hx Hxy]%list_elem_of_filter.
          simpl in Hx. subst x'. apply Hnin. apply list_elem_of_fmap.
          by exists (x, y'). }
        rewrite Hnil. cbn [map snd].
        by rewrite list_to_set_cons, list_to_set_nil, (right_id_L ∅ (∪)).
    + rewrite (decide_False (P := x = k)) by done.
      destruct (decide (k ∈ pairs.*1)) as [Hin|Hnin].
      * rewrite decide_True by by apply list_elem_of_further. done.
      * rewrite decide_False; [done|]. rewrite not_elem_of_cons. done.
Qed.

(** *** The pairs fed to the dict, in terms of the merged table *)

Lemma elem_of_zip_projection (cols : list string) (r : list Cell) (p : list nat)
    (f : string) (y : Cell) :
  (forall j, j ∈ p -> j < length cols) ->
  (forall j, j ∈ p -> j < length r) ->
  (f, y) ∈ zip (map slice_13_m1 (omap (fun j => cols !! j) p))
               (omap (fun j => r !! j) p)
  <-> exists j, j ∈ p /\ slice_13_m1 <$> cols !! j = Some f /\ r !! j = Some y.
Proof.
  induction p as [|i p IH]; intros Hc Hr.
  - simpl. rewrite elem_of_nil. split; [done|].
    intros (j & Hj & _). by apply elem_of_nil in Hj.
  - destruct (lookup_lt_is_Some_2 cols i) as [c Hci]; [apply Hc, list_elem_of_here|].
    destruct (lookup_lt_is_Some_2 r i) as [y0 Hri]; [apply Hr, list_elem_of_here|].
    simpl. rewrite Hci, Hri. simpl. rewrite elem_of_cons.
    rewrite IH by (intros; first [apply Hc|apply Hr]; by apply list_elem_of_further).
    split.
    + intros [[= -> ->]|(j & Hj & Hf & Hy)].
      * exists i. split; [apply list_elem_of_here|]. rewrite Hci, Hri. done.
      * exists j. split; [by apply list_elem_of_further|done].
    + intros (j & [->|Hj]%elem_of_cons & Hf & Hy).
      * left. rewrite Hci in Hf. rewrite Hri in Hy. simpl in Hf. congruence.
      * right. by exists j.
Qed.

Lemma elem_of_level_pairs df (f : string) (y : Cell) :
  rectangular df ->
  (f, y) ∈ level_pairs df
  <-> exists r j, r ∈ rows df /\ j ∈ factor_positions df /\
                  slice_13_m1 <$> columns df !! j = Some f /\ r !! j = Some y.
Proof.
  intros Hrect. pose proof (proj1 (Forall_forall _ _) Hrect) as Hlen.
  unfold level_pairs. cbn zeta.
  set (pc := flat_map (positions_of (columns df))
               (filter (fun x => startswith x "Factor Value" = true) (columns df))).
  assert (Hpc : forall j, j ∈ pc <-> j ∈ factor_positions df)
    by apply elem_of_selected_positions.
  rewrite list_elem_of_In, in_flat_map. split.
  - intros (row & Hrow%list_elem_of_In & Hin%list_elem_of_In).
    apply (proj1 (drop_duplicates_elem_of _ _)) in Hrow.
    cbn [getitem_columns rows] in Hrow. fold pc in Hrow.
    apply list_elem_of_fmap in Hrow as (r & -> & Hr).
    cbn [drop_duplicates getitem_columns columns] in Hin. fold pc in Hin.
    apply elem_of_zip_projection in Hin as (j & Hj & Hf & Hy).
    + exists r, j. rewrite <- Hpc. done.
    + intros j Hj. by apply factor_positions_lt, Hpc.
    + intros j Hj. rewrite Hlen by done. by apply factor_positions_lt, Hpc.
  - intros (r & j & Hr & Hj & Hf & Hy).
    exists (omap (fun j => r !! j) pc). split; apply list_elem_of_In.
    + apply (proj2 (drop_duplicates_elem_of _ _)).
      cbn [getitem_columns rows]. apply list_elem_of_fmap. by exists r.
    + cbn [drop_duplicates getitem_columns columns]. fold pc.
      apply elem_of_zip_projection.
      * intros j' Hj'. by apply factor_positions_lt, Hpc.
      * intros j' Hj'. rewrite Hlen by done. by apply factor_positions_lt, Hpc.
      * exists j. rewrite Hpc. done.
Qed.

Lemma elem_of_column_levels df (j : nat) (s : string) :
  s ∈ column_levels str df j <-> exists r y, r ∈ rows df /\ r !! j = Some y /\ s = str y.
Proof.
  unfold column_levels. rewrite elem_of_list_to_set, list_elem_of_omap. split.
  - intros (r & Hr & Hs). destruct (r !! j) as [y|] eqn:Hy; [|done].
    exists r, y. simpl in Hs. split; [done|]. split; congruence.
  - intros (r & y & Hr & Hy & ->). exists r. by rewrite Hy.
Qed.

Lemma elem_of_levels_of_factor df (f s : string) :
  s ∈ levels_of_factor str df f
  <-> exists j, j ∈ factor_positions df /\ slice_13_m1 <$> columns df !! j = Some f /\
                s ∈ column_levels str df j.
Proof.
  unfold levels_of_factor. rewrite elem_of_union_list. split.
  - intros (X & (j & -> & [Hf Hj]%list_elem_of_filter)%list_elem_of_fmap & Hs).
    by exists j.
  - intros (j & Hj & Hf & Hs). exists (column_levels str df j). split; [|done].
    apply list_elem_of_fmap. exists j. split; [done|]. by apply list_elem_of_filter.
Qed.

Lemma levels_in_level_pairs df (f : string) :
  rectangular df ->
  levels_in str f (level_pairs df) = levels_of_factor str df f.
Proof.
  intros Hrect. apply set_eq. intros s.
  rewrite elem_of_levels_of_factor. unfold levels_in.
  rewrite elem_of_list_to_set, list_elem_of_fmap. split.
  - intros ([x y] & -> & [Hx Hin]%list_elem_of_filter). simpl in Hx. subst x.
    apply elem_of_level_pairs in Hin as (r & j & Hr & Hj & Hf & Hy); [|done].
    exists j. split; [done|]. split; [done|].
    apply elem_of_column_levels. by exists r, y.
  - intros (j & Hj & Hf & (r & y & Hr & Hy & ->)%elem_of_column_levels).
    exists (f, y). split; [done|]. apply list_elem_of_filter. split; [done|].
    apply elem_of_level_pairs; [done|]. by exists r, j.
Qed.

(** *** The slice [[13:-1]] on a well-formed factor header *)

Lemma substring_0_app (f rest : string) :
  String.substring 0 (String.length f) (f +:+ rest) = f.
Proof. induction f as [|c f IH]; simpl; [by destruct rest|by rewrite IH]. Qed.

Lemma length_append (a b : string) :
  String.length (a +:+ b) = String.length a + String.length b.
Proof. induction a as [|c a IH]; simpl; [done|by rewrite IH]. Qed.

Lemma substring_skip_app (a b : string) (m : nat) :
  String.substring (String.length a) m (a +:+ b) = String.substring 0 m b.
Proof. induction a as [|c a IH]; simpl; [done|exact IH]. Qed.

Lemma slice_factor_header (f : string) :
  slice_13_m1 ("Factor Value[" +:+ f +:+ "]") = f.
Proof.
  unfold slice_13_m1. rewrite !length_append. simpl String.length.
  replace (13 + (String.length f + 1) - 14) with (String.length f) by lia.
  change 13 with (String.length "Factor Value[").
  rewrite substring_skip_app. apply substring_0_app.
Qed.

Lemma startswith_factor_header (f : string) :
  startswith ("Factor Value[" +:+ f +:+ "]") "Factor Value" = true.
Proof. reflexivity. Qed.

Lemma factor_header_position df (f : string) (j : nat) :
  columns df !! j = Some ("Factor Value[" +:+ f +:+ "]") ->
  j ∈ factor_positions df /\ slice_13_m1 <$> columns df !! j = Some f.
Proof.
  intros Hj. split.
  - unfold factor_positions. apply list_elem_of_filter. rewrite Hj. split; [done|].
    apply elem_of_seq. apply lookup_lt_Some in Hj. lia.
  - rewrite Hj. simpl. by rewrite slice_factor_header.
Qed.

(** C6, as the code has it. For a factor [f] with a column
    'Factor Value[f]' in the merged table, the 'num_levels' reported for
    [f] (missing only when the table has no row) is the number of distinct
    stringified values occurring in the 'Factor Value' columns whose name,
    sliced by [[13:-1]], is [f]; when 'Factor Value[f]' is the only such
    column, this is the number of distinct stringified values of that
    column. *)
Theorem num_levels_of_factor (merged_df : DataFrame Cell) (f : string) (j : nat) :
  rectangular merged_df ->
  columns merged_df !! j = Some ("Factor Value[" +:+ f +:+ "]") ->
  exists report,
    study_group_report str merged_df = Some report /\
    match dict_get f (factors_and_levels_report report) with
    | Some num_levels =>
        num_levels = size (levels_of_factor str merged_df f) /\
        ((forall j', j' ∈ factor_positions merged_df ->
                     slice_13_m1 <$> columns merged_df !! j' = Some f -> j' = j) ->
         num_levels = size (column_levels str merged_df j))
    | None => rows merged_df = []
    end.
Proof.
  intros Hrect Hj. destruct (factor_header_position _ _ _ Hj) as [Hpos Hslice].
  rewrite study_group_report_unfold.
  set (factor_cols := filter _ (columns merged_df)).
  assert (Hlen : (0 <? length factor_cols)%nat = true).
  { apply Nat.ltb_lt.
    assert (Hin : ("Factor Value[" +:+ f +:+ "]") ∈ factor_cols).
    { apply list_elem_of_filter. split; [done|]. by eapply list_elem_of_lookup_2. }
    destruct factor_cols; [by apply elem_of_nil in Hin|simpl; lia]. }
  rewrite Hlen. eexists. split; [reflexivity|].
  cbn [factors_and_levels_report]. rewrite dict_get_fmap.
  change (flat_map _ _) with (level_pairs merged_df).
  rewrite dict_get_levels_fold. simpl dict_get.
  destruct (decide (f ∈ (level_pairs merged_df).*1)) as [Hin|Hnin]; simpl.
  - rewrite levels_in_level_pairs by done.
    rewrite (left_id_L ∅ (∪)). split; [done|].
    intros Honly. f_equal. apply set_eq. intros s.
    rewrite elem_of_levels_of_factor. split.
    + intros (j' & Hj' & Hf' & Hs). by rewrite <- (Honly j' Hj' Hf').
    + intros Hs. by exists j.
  - destruct (rows merged_df) as [|r rs] eqn:Hrows; [done|]. exfalso.
    pose proof (proj1 (Forall_forall _ _) Hrect r) as Hr.
    rewrite Hrows in Hr. specialize (Hr (list_elem_of_here _ _)).
    destruct (lookup_lt_is_Some_2 r j) as [y Hy].
    { rewrite Hr. by apply factor_positions_lt. }
    apply Hnin. apply list_elem_of_fmap. exists (f, y). split; [done|].
    apply elem_of_level_pairs; [done|]. exists r, j. rewrite Hrows.
    split; [apply list_elem_of_here|done].
Qed.

End levels.

(** ** Batch fixing *)

Section batch.

Context {World : Type}.
Variable fix_as_source_characteristic :
  string -> pyval -> World -> World * outcome unit.
Variable fix_as_protocol_parameter_value :
  string -> pyval -> pyval -> World -> World * outcome unit.

Lemma getitem_str_list (v : pyval) (key : string) :
  is_list v = true -> getitem_str v key = Raised TypeError.
Proof. by destruct v. Qed.

(** C9. On a settings mapping of the documented shape, where the table
    file paths map to lists of fix descriptions, [batch_fix_isatabs]
    raises [TypeError] while it evaluates the arguments of the first
    [fix_factor] call: the first path has been announced, no fix has been
    called and the files are untouched. *)
Theorem batch_fix_isatabs_list_settings_type_error
    (settings : list (string * pyval)) (st : FixState) :
  settings <> [] ->
  Forall (fun kv => is_list kv.2 = true) settings ->
  exists table_file_path,
    head settings.*1 = Some table_file_path /\
    batch_fix_isatabs fix_as_source_characteristic fix_as_protocol_parameter_value
                      settings st
    = ({| printed := printed st ++ ["Fixing " +:+ table_file_path +:+ "..."];
          fix_calls := fix_calls st;
          world := world st |},
       Raised TypeError).
Proof.
  intros Hne Hall. destruct settings as [|[path v] rest]; [done|].
  exists path. split; [done|].
  apply Forall_cons_1 in Hall as [Hv _]. simpl in Hv.
  destruct v as [| |items|]; try discriminate.
  unfold batch_fix_isatabs. cbn [fmap list_fmap fst batch_fix_loop].
  unfold batch_fix_one. cbn [dict_get]. rewrite String.eqb_refl. reflexivity.
Qed.

End batch.

Lemma batch_fix_isatabs_list_settings_type_error_witness :
  exists table_file_path,
    head example_settings.*1 = Some table_file_path /\
    batch_fix_isatabs (World := unit)
      (fun _ _ w => (w, Returned tt)) (fun _ _ _ w => (w, Returned tt))
      example_settings {| printed := []; fix_calls := []; world := tt |}
    = ({| printed := [] ++ ["Fixing " +:+ table_file_path +:+ "..."];
          fix_calls := [];
          world := tt |},
       Raised TypeError).
Proof.
  apply (batch_fix_isatabs_list_settings_type_error
           (fun _ _ w => (w, Returned tt)) (fun _ _ _ w => (w, Returned tt))
           example_settings {| printed := []; fix_calls := []; world := tt |}).
  - discriminate.
  - apply (bool_decide_unpack _). vm_compute. exact I.
Defined.

(** ** The header fixer *)

Section fixer.

Lemma index_from_outcome (x : string) (l : list string) (i : Z) :
  match index_from x l i with
  | Returned z =>
      (i <= z)%Z /\ l !! Z.to_nat (z - i) = Some x /\
      forall j, (j < Z.to_nat (z - i))%nat -> l !! j <> Some x
  | Raised e => e = ValueError /\ x ∉ l
  end.
Proof.
  revert i. induction l as [|y l IH]; intros i; simpl.
  - split; [done|apply not_elem_of_nil].
  - destruct (String.eqb_spec y x) as [->|Hne].
    + replace (i - i)%Z with 0%Z by lia. split; [lia|]. split; [done|]. lia.
    + specialize (IH (i + 1)%Z). destruct (index_from x l (i + 1)) as [z|e].
      * destruct IH as (Hle & Hz & Hfirst).
        replace (Z.to_nat (z - i)) with (S (Z.to_nat (z - (i + 1)))) by lia.
        split; [lia|]. split; [done|].
        intros [|j] Hj; simpl; [congruence|]. apply Hfirst. lia.
      * destruct IH as [-> Hnin]. split; [done|].
        rewrite not_elem_of_cons. done.
Qed.

(** [l.index(x)] returns the first position of [x], never a negative
    number, and raises [ValueError] exactly when [x] is absent. *)
Lemma list_index_outcome (l : list string) (x : string) :
  match list_index l x with
  | Returned z =>
      (0 <= z)%Z /\ l !! Z.to_nat z = Some x /\
      forall j, (j < Z.to_nat z)%nat -> l !! j <> Some x
  | Raised e => e = ValueError /\ x ∉ l
  end.
Proof.
  unfold list_index. pose proof (index_from_outcome x l 0) as H.
  destruct (index_from x l 0) as [z|e]; [|done].
  by replace (z - 0)%Z with z in H by lia.
Qed.

Lemma raises_only_bind {A B : Type} (P : exn -> Prop) (m : outcome A)
    (k : A -> outcome B) :
  raises_only P m -> (forall a, raises_only P (k a)) -> raises_only P (m ≫= k).
Proof.
  intros Hm Hk e. destruct m as [a|e']; simpl.
  - apply Hk.
  - intros [= ->]. by apply Hm.
Qed.

Lemma raises_only_ret {A : Type} (P : exn -> Prop) (a : A) :
  raises_only P (mret a).
Proof. intros e. discriminate. Qed.

Lemma raises_only_returned {A : Type} (P : exn -> Prop) (a : A) :
  raises_only P (Returned a).
Proof. intros e. discriminate. Qed.

Lemma raises_only_raised {A : Type} (P : exn -> Prop) (e : exn) :
  P e -> raises_only P (@Raised A e).
Proof. intros He e' [= <-]. done. Qed.

Lemma normalize_index_raises {A : Type} (l : list A) (i : Z) :
  raises_only (fun e => e = IndexError) (normalize_index l i).
Proof.
  unfold normalize_index. destruct (_ && _)%Z.
  - apply raises_only_returned.
  - by apply raises_only_raised.
Qed.

Lemma getitem_raises {A : Type} (l : list A) (i : Z) :
  raises_only (fun e => e = IndexError) (getitem l i).
Proof.
  unfold getitem. apply raises_only_bind; [apply normalize_index_raises|].
  intros j. destruct (l !! j); [apply raises_only_returned|by apply raises_only_raised].
Qed.

Lemma setitem_raises {A : Type} (l : list A) (i : Z) (v : A) :
  raises_only (fun e => e = IndexError) (setitem l i v).
Proof.
  unfold setitem. apply raises_only_bind; [apply normalize_index_raises|].
  intros j. apply raises_only_ret.
Qed.

Lemma delitem_raises {A : Type} (l : list A) (i : Z) :
  raises_only (fun e => e = IndexError) (delitem l i).
Proof.
  unfold delitem. apply raises_only_bind; [apply normalize_index_raises|].
  intros j. apply raises_only_ret.
Qed.

(** Walks through a chain of binds, conditionals and list accesses. *)
Ltac raises_index_only :=
  repeat first
    [ apply getitem_raises
    | apply delitem_raises
    | apply setitem_raises
    | apply raises_only_ret
    | apply raises_only_returned
    | apply raises_only_bind; [|intros ?]
    | match goal with
      | |- raises_only _ (if ?b then _ else _) => destruct b
      end
    | progress cbv zeta ].

Lemma has_term_columns_raises (field_names : list string) (factor_index : Z) :
  raises_only (fun e => e = IndexError) (has_term_columns field_names factor_index).
Proof. unfold has_term_columns. raises_index_only. Qed.

Lemma has_unit_term_columns_raises (field_names : list string) (factor_index : Z) :
  raises_only (fun e => e = IndexError) (has_unit_term_columns field_names factor_index).
Proof. unfold has_unit_term_columns. raises_index_only. Qed.

Lemma has_unit_column_raises (field_names : list string) (factor_index : Z) :
  raises_only (fun e => e = IndexError) (has_unit_column field_names factor_index).
Proof. unfold has_unit_column. raises_index_only. Qed.

(** The moves only ever fail on an index out of range. *)
Lemma move_factor_columns_raises (field_names : list string) (factor_index anchor : Z) :
  raises_only (fun e => e = IndexError)
              (move_factor_columns field_names factor_index anchor).
Proof.
  unfold move_factor_columns.
  apply raises_only_bind; [apply has_term_columns_raises|]. intros [|].
  { raises_index_only. }
  apply raises_only_bind; [apply has_unit_term_columns_raises|]. intros [|].
  { raises_index_only. }
  apply raises_only_bind; [apply has_unit_column_raises|]. intros [|];
    raises_index_only.
Qed.

Lemma raises_only_weaken {A : Type} (P Q : exn -> Prop) (m : outcome A) :
  (forall e, P e -> Q e) -> raises_only P m -> raises_only Q m.
Proof. intros HPQ Hm e He. by apply HPQ, Hm. Qed.

Lemma set_columns_raises (width : nat) (names : list string) :
  raises_only (fun e => e = ValueError) (set_columns width names).
Proof.
  unfold set_columns. destruct (_ =? _)%nat;
    [apply raises_only_returned|by apply raises_only_raised].
Qed.

Lemma rename_moved_column_raises (width : nat) (field_names : list string)
    (anchor : Z) (kind : string) :
  raises_only (fun e => e = IndexError \/ e = ValueError)
              (rename_moved_column width field_names anchor kind).
Proof.
  unfold rename_moved_column.
  apply raises_only_bind.
  { eapply raises_only_weaken; [|apply set_columns_raises]. auto. }
  intros cols. cbv zeta. apply raises_only_bind.
  { eapply raises_only_weaken; [|apply getitem_raises]. auto. }
  intros x. apply raises_only_bind.
  { eapply raises_only_weaken; [|apply setitem_raises]. auto. }
  intros fnm. eapply raises_only_weaken; [|apply set_columns_raises]. auto.
Qed.

Lemma strip_quotes_no_io (x : string) :
  strip_quotes x <> Raised protocol_ref_not_found.
Proof.
  destruct x as [|c x]; simpl; [done|].
  by destruct (_ && _).
Qed.

Lemma map_outcome_no_io (l : list string) :
  map_outcome strip_quotes l <> Raised protocol_ref_not_found.
Proof.
  induction l as [|x l IH]; simpl; [done|].
  pose proof (strip_quotes_no_io x) as Hx.
  destruct (strip_quotes x) as [y|e]; simpl; [|congruence].
  destruct (map_outcome strip_quotes l) as [ys|e]; simpl; [done|congruence].
Qed.

(** Whatever the table file holds, looking up the protocol reference
    either raises something other than the guarded exception or returns
    a non-negative position. *)
Lemma find_protocol_ref_outcome (tfile : list string) (protocol_ref : string) :
  match find_protocol_ref tfile protocol_ref with
  | Returned z => (0 <= z)%Z
  | Raised e => e <> protocol_ref_not_found
  end.
Proof.
  unfold find_protocol_ref. destruct tfile as [|header [|line1 rest]]; [done|done|].
  pose proof (map_outcome_no_io (split_char tab line1)) as Hmap.
  destruct (map_outcome strip_quotes (split_char tab line1)) as [cells|e]; simpl;
    [|congruence].
  pose proof (list_index_outcome cells protocol_ref) as Hidx.
  destruct (list_index cells protocol_ref) as [z|e]; [tauto|].
  destruct Hidx as [-> _]. done.
Qed.

(** C10. In [replace_factor_with_protocol_parameter_value] the branch
    guarded by [protocol_ref_index < 0] is never taken: when
    [protocol_ref] is absent from the parsed first data row, [list.index]
    raises [ValueError] and nothing is assigned; when it is present the
    position found is not negative, so the guard is false whenever it is
    evaluated and the method never raises the guarded exception. *)
Theorem protocol_ref_guard_unreachable
    (columns tfile : list string) (factor_name protocol_ref : string) :
  (forall cells : list string,
     match list_index cells protocol_ref with
     | Returned z => (0 <= z)%Z /\ cells !! Z.to_nat z = Some protocol_ref
     | Raised e => e = ValueError /\ protocol_ref ∉ cells
     end)
  /\ match find_protocol_ref tfile protocol_ref with
     | Returned protocol_ref_index => (protocol_ref_index <? 0)%Z = false
     | Raised e => e <> protocol_ref_not_found
     end
  /\ replace_factor_with_protocol_parameter_value columns tfile factor_name protocol_ref
     <> Raised protocol_ref_not_found.
Proof.
  split; [|split].
  - intros cells. pose proof (list_index_outcome cells protocol_ref) as H.
    destruct (list_index cells protocol_ref); tauto.
  - pose proof (find_protocol_ref_outcome tfile protocol_ref) as H.
    destruct (find_protocol_ref tfile protocol_ref); [lia|done].
  - unfold replace_factor_with_protocol_parameter_value.
    set (field_names := clean_isatab_field_names columns).
    pose proof (list_index_outcome field_names
                  ("Factor Value[" +:+ factor_name +:+ "]")) as Hfactor.
    destruct (list_index field_names _) as [factor_index|e]; simpl;
      [|destruct Hfactor as [-> _]; done].
    pose proof (find_protocol_ref_outcome tfile protocol_ref) as Hfind.
    destruct (find_protocol_ref tfile protocol_ref) as [z|e]; simpl; [|congruence].
    assert (Hz : (z <? 0)%Z = false) by lia. rewrite Hz.
    intros Hraise.
    enough (Hro : raises_only (fun e => e <> protocol_ref_not_found)
              (move_factor_columns field_names factor_index z ≫=
                 (fun moved => rename_moved_column (length columns) moved z
                                 "Parameter Value")))
      by exact (Hro _ Hraise eq_refl).
    apply raises_only_bind.
    + eapply raises_only_weaken; [|apply move_factor_columns_raises].
      by intros e ->.
    + intros moved. eapply raises_only_weaken; [|apply rename_moved_column_raises].
      by intros e [->| ->].
Qed.

(** *** What the four branches do to a header

    The header is split around the two columns the method looks up:
    [A ++ src :: B ++ fv :: ...], with [src] at index [len A] and the
    factor column [fv] at index [len A + 1 + len B]. *)

Section moves.

Implicit Types (A B C P Q : list string) (src fv x : string).

Lemma len_app P Q : len (P ++ Q) = (len P + len Q)%Z.
Proof. unfold len. rewrite length_app. lia. Qed.

Lemma len_cons x P : len (x :: P) = (1 + len P)%Z.
Proof. unfold len. simpl. lia. Qed.

Lemma len_nonneg P : (0 <= len P)%Z.
Proof. unfold len. lia. Qed.

Lemma normalize_index_split (l P Q : list string) x (i : Z) :
  l = P ++ x :: Q -> i = len P ->
  normalize_index l i = Returned (length P).
Proof.
  intros -> ->. unfold normalize_index.
  pose proof (len_nonneg P). pose proof (len_nonneg Q).
  destruct (Z.ltb_spec (len P) 0); [lia|].
  rewrite len_app, len_cons.
  destruct (Z.leb_spec 0 (len P)); [|lia].
  destruct (Z.ltb_spec (len P) (len P + (1 + len Q))); [|lia].
  simpl. unfold len. by rewrite Nat2Z.id.
Qed.

Lemma getitem_split (l P Q : list string) x (i : Z) :
  l = P ++ x :: Q -> i = len P -> getitem l i = Returned x.
Proof.
  intros Hl Hi. unfold getitem. rewrite (normalize_index_split l P Q x i Hl Hi).
  simpl. subst l. by rewrite list_lookup_middle.
Qed.

Lemma delitem_split (l P Q : list string) x (i : Z) :
  l = P ++ x :: Q -> i = len P -> delitem l i = Returned (P ++ Q).
Proof.
  intros Hl Hi. unfold delitem. rewrite (normalize_index_split l P Q x i Hl Hi).
  simpl. subst l. f_equal.
  rewrite take_app_length. f_equal.
  rewrite (drop_app_ge P (x :: Q)) by lia.
  by replace (S (length P) - length P)%nat with 1%nat by lia.
Qed.

Lemma list_insert_at_split (l P Q : list string) x (i : Z) :
  l = P ++ Q -> i = len P -> list_insert_at l i x = P ++ x :: Q.
Proof.
  intros -> ->. unfold list_insert_at.
  pose proof (len_nonneg P). pose proof (len_nonneg Q).
  destruct (Z.ltb_spec (len P) 0); [lia|].
  rewrite len_app. rewrite Z.min_l by lia.
  unfold len. rewrite Nat2Z.id. by rewrite take_app_length, drop_app_length.
Qed.

(** One step of a branch: read, insert or delete at the position that
    follows the prefix [P], then put the list back in right-nested form. *)
Ltac right_nest := repeat (progress (rewrite <- ?app_assoc; cbn [app])).

Ltac split_side :=
  first [ right_nest; reflexivity
        | repeat (rewrite len_app || rewrite len_cons); unfold len; simpl; lia ].

Ltac branch_get P x :=
  erewrite (getitem_split _ P _ x) by split_side;
  cbn [mbind outcome_bind].

Ltac branch_insert P :=
  erewrite (list_insert_at_split _ P) by split_side;
  right_nest.

Ltac branch_del P x :=
  erewrite (delitem_split _ P _ x) by split_side;
  cbn [mbind outcome_bind]; right_nest.

(** With 'Term Source REF' and 'Term Accession' columns, the factor and
    its two companions move behind the anchor. *)
Lemma move_with_term_columns A B C src fv c1 c2 :
  has_term_columns (A ++ src :: B ++ fv :: c1 :: c2 :: C) (len A + 1 + len B)
  = Returned true ->
  move_factor_columns (A ++ src :: B ++ fv :: c1 :: c2 :: C)
                      (len A + 1 + len B) (len A)
  = Returned (A ++ src :: fv :: c1 :: c2 :: B ++ C).
Proof.
  intros Hterm. unfold move_factor_columns. rewrite Hterm.
  cbn [mbind outcome_bind].
  branch_get (A ++ src :: B) fv.
  branch_insert (A ++ [src]).
  branch_get (A ++ src :: fv :: B ++ [fv]) c1.
  branch_insert (A ++ [src; fv]).
  branch_get (A ++ src :: fv :: c1 :: B ++ [fv; c1]) c2.
  branch_insert (A ++ [src; fv; c1]).
  branch_del (A ++ src :: fv :: c1 :: c2 :: B) fv.
  branch_del (A ++ src :: fv :: c1 :: c2 :: B) c1.
  branch_del (A ++ src :: fv :: c1 :: c2 :: B) c2.
  done.
Qed.

(** With 'Unit', 'Term Source REF' and 'Term Accession' columns, all four
    columns move. *)
Lemma move_with_unit_term_columns A B C src fv u c1 c2 :
  has_term_columns (A ++ src :: B ++ fv :: u :: c1 :: c2 :: C) (len A + 1 + len B)
  = Returned false ->
  has_unit_term_columns (A ++ src :: B ++ fv :: u :: c1 :: c2 :: C) (len A + 1 + len B)
  = Returned true ->
  move_factor_columns (A ++ src :: B ++ fv :: u :: c1 :: c2 :: C)
                      (len A + 1 + len B) (len A)
  = Returned (A ++ src :: fv :: u :: c1 :: c2 :: B ++ C).
Proof.
  intros Hterm Hunit_term. unfold move_factor_columns. rewrite Hterm.
  cbn [mbind outcome_bind]. rewrite Hunit_term. cbn [mbind outcome_bind].
  branch_get (A ++ src :: B) fv.
  branch_insert (A ++ [src]).
  branch_get (A ++ src :: fv :: B ++ [fv]) u.
  branch_insert (A ++ [src; fv]).
  branch_get (A ++ src :: fv :: u :: B ++ [fv; u]) c1.
  branch_insert (A ++ [src; fv; u]).
  branch_get (A ++ src :: fv :: u :: c1 :: B ++ [fv; u; c1]) c2.
  branch_insert (A ++ [src; fv; u; c1]).
  branch_del (A ++ src :: fv :: u :: c1 :: c2 :: B) fv.
  branch_del (A ++ src :: fv :: u :: c1 :: c2 :: B) u.
  branch_del (A ++ src :: fv :: u :: c1 :: c2 :: B) c1.
  branch_del (A ++ src :: fv :: u :: c1 :: c2 :: B) c2.
  done.
Qed.

(** With a 'Unit' column only, the factor and its unit move. *)
Lemma move_with_unit_column A B C src fv u :
  has_term_columns (A ++ src :: B ++ fv :: u :: C) (len A + 1 + len B)
  = Returned false ->
  has_unit_term_columns (A ++ src :: B ++ fv :: u :: C) (len A + 1 + len B)
  = Returned false ->
  has_unit_column (A ++ src :: B ++ fv :: u :: C) (len A + 1 + len B)
  = Returned true ->
  move_factor_columns (A ++ src :: B ++ fv :: u :: C) (len A + 1 + len B) (len A)
  = Returned (A ++ src :: fv :: u :: B ++ C).
Proof.
  intros Hterm Hunit_term Hunit. unfold move_factor_columns. rewrite Hterm.
  cbn [mbind outcome_bind]. rewrite Hunit_term. cbn [mbind outcome_bind].
  rewrite Hunit. cbn [mbind outcome_bind].
  branch_get (A ++ src :: B) fv.
  branch_insert (A ++ [src]).
  branch_get (A ++ src :: fv :: B ++ [fv]) u.
  branch_insert (A ++ [src; fv]).
  branch_del (A ++ src :: fv :: u :: B) fv.
  branch_del (A ++ src :: fv :: u :: B) u.
  done.
Qed.

(** Without companion columns, a factor that already follows the anchor
    stays where it is. *)
Lemma move_plain_adjacent A C src fv :
  has_term_columns (A ++ src :: fv :: C) (len A + 1) = Returned false ->
  has_unit_term_columns (A ++ src :: fv :: C) (len A + 1) = Returned false ->
  has_unit_column (A ++ src :: fv :: C) (len A + 1) = Returned false ->
  move_factor_columns (A ++ src :: fv :: C) (len A + 1) (len A)
  = Returned (A ++ src :: fv :: C).
Proof.
  intros Hterm Hunit_term Hunit. unfold move_factor_columns. rewrite Hterm.
  cbn [mbind outcome_bind]. rewrite Hunit_term. cbn [mbind outcome_bind].
  rewrite Hunit. cbn [mbind outcome_bind].
  branch_get (A ++ [src]) fv.
  branch_insert (A ++ [src]).
  branch_del (A ++ [src]) fv.
  done.
Qed.

(** Without companion columns, a factor further to the right is copied
    behind the anchor and the column that stood before it is deleted in
    its place. *)
Lemma move_plain_drops_neighbour A B C src b fv :
  has_term_columns (A ++ src :: (B ++ [b]) ++ fv :: C) (len A + 1 + len (B ++ [b]))
  = Returned false ->
  has_unit_term_columns (A ++ src :: (B ++ [b]) ++ fv :: C) (len A + 1 + len (B ++ [b]))
  = Returned false ->
  has_unit_column (A ++ src :: (B ++ [b]) ++ fv :: C) (len A + 1 + len (B ++ [b]))
  = Returned false ->
  move_factor_columns (A ++ src :: (B ++ [b]) ++ fv :: C)
                      (len A + 1 + len (B ++ [b])) (len A)
  = Returned (A ++ src :: fv :: B ++ fv :: C).
Proof.
  intros Hterm Hunit_term Hunit. unfold move_factor_columns. rewrite Hterm.
  cbn [mbind outcome_bind]. rewrite Hunit_term. cbn [mbind outcome_bind].
  rewrite Hunit. cbn [mbind outcome_bind].
  branch_get (A ++ src :: B ++ [b]) fv.
  branch_insert (A ++ [src]).
  branch_del (A ++ src :: fv :: B) b.
  done.
Qed.

Lemma index_from_split P Q x (i : Z) :
  x ∉ P -> index_from x (P ++ x :: Q) i = Returned (i + len P)%Z.
Proof.
  revert i. induction P as [|y P IH]; intros i Hnin; simpl.
  - rewrite String.eqb_refl. f_equal. unfold len. simpl. lia.
  - apply not_elem_of_cons in Hnin as [Hne Hnin].
    destruct (String.eqb_spec y x) as [->|_]; [done|].
    rewrite IH by done. f_equal. rewrite len_cons. lia.
Qed.

Lemma list_index_split (l P Q : list string) x :
  l = P ++ x :: Q -> x ∉ P -> list_index l x = Returned (len P).
Proof. intros -> Hnin. unfold list_index. by rewrite index_from_split. Qed.

Lemma setitem_split (l P Q : list string) x v (i : Z) :
  l = P ++ x :: Q -> i = len P -> setitem l i v = Returned (P ++ v :: Q).
Proof.
  intros Hl Hi. unfold setitem. rewrite (normalize_index_split l P Q x i Hl Hi).
  simpl. subst l. f_equal.
  rewrite insert_app_r_alt by done. by rewrite Nat.sub_diag.
Qed.

Lemma set_columns_same_width (width : nat) (names : list string) :
  length names = width -> set_columns width names = Returned names.
Proof. intros <-. unfold set_columns. by rewrite Nat.eqb_refl. Qed.

Lemma clean_stable_Forall (l : list string) :
  clean_isatab_field_names l = l <-> Forall (fun x => clean_field_name x = x) l.
Proof.
  unfold clean_isatab_field_names. induction l as [|x l IH]; simpl.
  - split; [constructor|done].
  - rewrite Forall_cons, <- IH. split.
    + intros [= Hx Hl]. done.
    + intros [-> ->]. done.
Qed.

(** The whole method on a header that cleaning leaves as it is: once the
    branch taken has moved the factor column [fv] and its companions [cs]
    behind 'Source Name', the header written back is the moved one, with
    the factor column renamed and cleaned once more. *)
Theorem replace_factor_after_move A B C (cs : list string) (f : string) :
  let fv := "Factor Value[" +:+ f +:+ "]" in
  let columns := A ++ "Source Name" :: B ++ fv :: cs ++ C in
  clean_isatab_field_names columns = columns ->
  "Source Name" ∉ A -> fv ∉ A -> fv ∉ B ->
  move_factor_columns columns (len A + 1 + len B) (len A)
  = Returned (A ++ "Source Name" :: fv :: cs ++ B ++ C) ->
  replace_factor_with_source_characteristic columns f
  = Returned (A ++ "Source Name"
                :: clean_field_name (str_replace fv "Factor Value" "Characteristics")
                :: cs ++ B ++ C).
Proof.
  intros fv columns Hclean HsrcA HfvA HfvB Hmove.
  unfold replace_factor_with_source_characteristic. fold fv. rewrite Hclean.
  assert (Hfi : list_index columns fv = Returned (len A + 1 + len B)%Z).
  { rewrite (list_index_split columns (A ++ "Source Name" :: B) (cs ++ C) fv).
    - f_equal. rewrite len_app, len_cons. lia.
    - subst columns. right_nest. reflexivity.
    - rewrite elem_of_app, elem_of_cons. intros [?|[?|?]]; done. }
  assert (Hsi : list_index columns "Source Name" = Returned (len A)).
  { by apply (list_index_split columns A (B ++ fv :: cs ++ C)). }
  rewrite Hfi. cbn [mbind outcome_bind]. rewrite Hsi. cbn [mbind outcome_bind].
  rewrite Hmove. cbn [mbind outcome_bind].
  apply clean_stable_Forall in Hclean. subst columns.
  repeat (rewrite Forall_app in Hclean || rewrite Forall_cons in Hclean).
  destruct Hclean as (HA & Hsrc & HB & Hfv & Hcs & HC).
  assert (Hmoved : clean_isatab_field_names (A ++ "Source Name" :: fv :: cs ++ B ++ C)
                   = A ++ "Source Name" :: fv :: cs ++ B ++ C).
  { apply clean_stable_Forall.
    repeat (rewrite Forall_app || rewrite Forall_cons). done. }
  unfold rename_moved_column. rewrite Hmoved.
  assert (Hwidth : forall x, length (A ++ "Source Name" :: x :: cs ++ B ++ C)
                 = length (A ++ "Source Name" :: B ++ fv :: cs ++ C)).
  { intros x. repeat (rewrite length_app || rewrite length_cons). lia. }
  rewrite set_columns_same_width by apply Hwidth. cbn [mbind outcome_bind].
  rewrite (getitem_split _ (A ++ ["Source Name"]) (cs ++ B ++ C) fv);
    [|by right_nest|rewrite len_app, len_cons; unfold len; simpl; lia].
  cbn [mbind outcome_bind].
  rewrite (setitem_split _ (A ++ ["Source Name"]) (cs ++ B ++ C) fv);
    [|by right_nest|rewrite len_app, len_cons; unfold len; simpl; lia].
  cbn [mbind outcome_bind]. right_nest.
  rewrite set_columns_same_width
    by (unfold clean_isatab_field_names; rewrite length_map; apply Hwidth).
  f_equal. unfold clean_isatab_field_names.
  repeat (rewrite map_app || rewrite map_cons).
  apply clean_stable_Forall in HA, HB, Hcs, HC.
  unfold clean_isatab_field_names in HA, HB, Hcs, HC.
  by rewrite HA, HB, Hcs, HC, Hsrc.
Qed.

(** The three branches with companion columns on a study table header:
    the block lands behind 'Source Name' in its own order and the other
    columns keep theirs. *)
Example replace_factor_term_branch_moves :
  replace_factor_with_source_characteristic
    ["Source Name"; "Characteristics[organism]"; "Term Source REF";
     "Term Accession Number"; "Protocol REF"; "Sample Name";
     "Factor Value[Gender]"; "Term Source REF.1"; "Term Accession Number.1";
     "Factor Value[dose]"; "Unit"; "Term Source REF.2"; "Term Accession Number.2";
     "Factor Value[age]"; "Unit.1"; "Comment[x]"] "Gender"
  = Returned
      ["Source Name"; "Characteristics[Gender]"; "Term Source REF";
       "Term Accession Number"; "Characteristics[organism]"; "Term Source REF";
       "Term Accession Number"; "Protocol REF"; "Sample Name";
       "Factor Value[dose]"; "Unit"; "Term Source REF"; "Term Accession Number";
       "Factor Value[age]"; "Unit"; "Comment[x]"].
Proof. vm_compute. reflexivity. Qed.

Example replace_factor_unit_term_branch_moves :
  replace_factor_with_source_characteristic
    ["Source Name"; "Characteristics[organism]"; "Term Source REF";
     "Term Accession Number"; "Protocol REF"; "Sample Name";
     "Factor Value[Gender]"; "Term Source REF.1"; "Term Accession Number.1";
     "Factor Value[dose]"; "Unit"; "Term Source REF.2"; "Term Accession Number.2";
     "Factor Value[age]"; "Unit.1"; "Comment[x]"] "dose"
  = Returned
      ["Source Name"; "Characteristics[dose]"; "Unit"; "Term Source REF";
       "Term Accession Number"; "Characteristics[organism]"; "Term Source REF";
       "Term Accession Number"; "Protocol REF"; "Sample Name";
       "Factor Value[Gender]"; "Term Source REF"; "Term Accession Number";
       "Factor Value[age]"; "Unit"; "Comment[x]"].
Proof. vm_compute. reflexivity. Qed.

Example replace_factor_unit_branch_moves :
  replace_factor_with_source_characteristic
    ["Source Name"; "Characteristics[organism]"; "Term Source REF";
     "Term Accession Number"; "Protocol REF"; "Sample Name";
     "Factor Value[Gender]"; "Term Source REF.1"; "Term Accession Number.1";
     "Factor Value[dose]"; "Unit"; "Term Source REF.2"; "Term Accession Number.2";
     "Factor Value[age]"; "Unit.1"; "Comment[x]"] "age"
  = Returned
      ["Source Name"; "Characteristics[age]"; "Unit";
       "Characteristics[organism]"; "Term Source REF"; "Term Accession Number";
       "Protocol REF"; "Sample Name"; "Factor Value[Gender]"; "Term Source REF";
       "Term Accession Number"; "Factor Value[dose]"; "Unit"; "Term Source REF";
       "Term Accession Number"; "Comment[x]"].
Proof. vm_compute. reflexivity. Qed.

(** The factor column in last position: the first guard reads
    [field_names[factor_index + 1]] and the method stops on
    [IndexError]. *)
Example replace_factor_last_column_raises :
  replace_factor_with_source_characteristic plain_factor_header "replicate"
  = Raised IndexError.
Proof. vm_compute. reflexivity. Qed.

End moves.

End fixer.

Lemma detect_isatab_process_pooling_spec_witness :
  detect_isatab_process_pooling (fun _ => Returned pooled_investigation)
                                investigation_file
  = Returned (flat_map (fun t => table_entry t.1 t.2)
                       (tables_in_load_order pooled_investigation))
  /\ forall filename pooling_list,
       (filename, pooling_list)
         ∈ flat_map (fun t => table_entry t.1 t.2)
                    (tables_in_load_order pooled_investigation) <->
       pooling_list <> [] /\
       exists G, (filename, G) ∈ tables_in_load_order pooled_investigation /\
                 detect_graph_process_pooling G = pooling_list.
Proof.
  apply (detect_isatab_process_pooling_spec
           (fun _ => Returned pooled_investigation) investigation_file
           pooled_investigation).
  reflexivity.
Defined.

(** On [pooled_investigation] the report has the single entry of the
    assay table. *)
Example detect_isatab_process_pooling_pooled :
  detect_isatab_process_pooling (fun _ => Returned pooled_investigation)
                                investigation_file
  = Returned [("a_pool.txt", ["#process/extraction1"])].
Proof. vm_compute. reflexivity. Qed.

Lemma total_study_groups_distinct_rows_witness :
  exists report,
    study_group_report (fun x => x) two_factor_table = Some report /\
    total_study_groups report
    = length (remove_dups (factor_projection two_factor_table)).
Proof.
  apply (total_study_groups_distinct_rows (fun x => x) two_factor_table).
  - apply (bool_decide_unpack _). vm_compute. exact I.
  - apply (bool_decide_unpack _). vm_compute. exact I.
Defined.

Lemma num_levels_of_factor_witness :
  exists report,
    study_group_report (fun x => x) two_factor_table = Some report /\
    match dict_get "dose" (factors_and_levels_report report) with
    | Some num_levels =>
        num_levels = size (levels_of_factor (fun x => x) two_factor_table "dose") /\
        ((forall j', j' ∈ factor_positions two_factor_table ->
                     slice_13_m1 <$> columns two_factor_table !! j' = Some "dose" ->
                     j' = 1) ->
         num_levels = size (column_levels (fun x => x) two_factor_table 1))
    | None => rows two_factor_table = []
    end.
Proof.
  apply (num_levels_of_factor (fun x => x) two_factor_table "dose" 1).
  - apply (bool_decide_unpack _). vm_compute. exact I.
  - reflexivity.
Defined.

(** C6 fails as stated. In [collision_table] the column
    'Factor Value[dose]' holds the single value 'low', yet the report
    gives three levels for 'dose': the column 'Factor Value(dose)' is
    sliced to the same factor name and its values join the same set. *)
Lemma num_levels_collision :
  rectangular collision_table /\
  columns collision_table !! 1 = Some "Factor Value[dose]" /\
  ~ (forall report num_levels,
       study_group_report (fun x => x) collision_table = Some report ->
       dict_get "dose" (factors_and_levels_report report) = Some num_levels ->
       num_levels = size (column_levels (fun x => x) collision_table 1)).
Proof.
  split; [apply (bool_decide_unpack _); vm_compute; exact I|].
  split; [reflexivity|].
  intros Hclaim.
  assert (Hrep : study_group_report (fun x => x) collision_table
    = Some {| total_study_groups := 2;
              factors_and_levels_report := [("dose", 3)];
              study_group_queries :=
                ["dose == low and dose == 1"; "dose == low and dose == 2"] |})
    by (vm_compute; reflexivity).
  assert (Hcol : size (column_levels (fun x => x) collision_table 1) = 1)
    by (vm_compute; reflexivity).
  pose proof (Hclaim _ 3 Hrep eq_refl) as Hthree.
  rewrite Hcol in Hthree. discriminate.
Qed.


(** C3. On an investigation with two studies, each with its own assay and
    all files present, the archive holds the second study's assay file
    under both studies and never the first study's assay file: the
    zip-writing loop reads the variable [selected_assays] left by the last
    iteration of the collecting loop instead of selecting per study. *)
Theorem create_isatab_archive_stale_selection :
  run_result (create_isatab_archive (fun _ => Returned two_studies)
                two_studies_dir investigation_file None None)
  = Returned (Some ["i_Investigation.txt"; "s_first.txt"; "a_second.txt";
                    "s_second.txt"; "a_second.txt"])
  /\ referenced_data_files None two_studies = []
  /\ flat_map (study_members None) (studies two_studies)
     = ["s_first.txt"; "a_first.txt"; "s_second.txt"; "a_second.txt"]
  /\ "a_first.txt" ∉ ["i_Investigation.txt"; "s_first.txt"; "a_second.txt";
                      "s_second.txt"; "a_second.txt"].
Proof.
  repeat split; try (vm_compute; reflexivity).
  apply (bool_decide_unpack _). vm_compute. exact I.
Qed.

(** C1 fails on the branch without companion columns. On
    [plain_factor_header], already clean, 'Source Name' is at index 0 and
    'Factor Value[genotype]' at index 4, and no guard holds, so the last
    branch runs: it inserts the factor behind 'Source Name' and then
    deletes index [factor_index], where 'Sample Name' now stands, instead
    of [factor_index + 1].  The header that is written has lost
    'Sample Name' and still carries 'Factor Value[genotype]': it is not a
    permutation of the input. *)
Theorem replace_factor_plain_branch_drops_column :
  clean_isatab_field_names plain_factor_header = plain_factor_header /\
  list_index plain_factor_header "Source Name" = Returned 0%Z /\
  list_index plain_factor_header "Factor Value[genotype]" = Returned 4%Z /\
  has_term_columns plain_factor_header 4 = Returned false /\
  has_unit_term_columns plain_factor_header 4 = Returned false /\
  has_unit_column plain_factor_header 4 = Returned false /\
  replace_factor_with_source_characteristic plain_factor_header "genotype"
  = Returned ["Source Name"; "Characteristics[genotype]";
              "Characteristics[organism]"; "Protocol REF";
              "Factor Value[genotype]"; "Factor Value[replicate]"] /\
  ~ ["Source Name"; "Characteristics[genotype]"; "Characteristics[organism]";
     "Protocol REF"; "Factor Value[genotype]"; "Factor Value[replicate]"]
    ≡ₚ ["Source Name"; "Characteristics[genotype]"; "Characteristics[organism]";
        "Protocol REF"; "Sample Name"; "Factor Value[replicate]"].
Proof.
  repeat split; try (vm_compute; reflexivity).
  intros Hperm.
  assert (Hin : "Sample Name" ∈ ["Source Name"; "Characteristics[genotype]";
     "Characteristics[organism]"; "Protocol REF"; "Factor Value[genotype]";
     "Factor Value[replicate]"]).
  { rewrite Hperm. apply (bool_decide_unpack _). vm_compute. exact I. }
  revert Hin. apply (bool_decide_unpack _). vm_compute. exact I.
Qed.

(** * Further properties *)

(** ** Sublist search *)

Section contains_facts.

Context {A : Type} `{EqDecision A}.

Implicit Types (big small : list A).

Lemma getitem_lookup (l : list A) (k : nat) (x : A) :
  l !! k = Some x -> getitem l (Z.of_nat k) = Returned x.
Proof.
  intros Hk. pose proof (lookup_lt_Some _ _ _ Hk) as Hlt.
  unfold getitem, normalize_index, len.
  destruct (Z.ltb_spec (Z.of_nat k) 0); [lia|].
  destruct (Z.leb_spec 0 (Z.of_nat k)); [|lia].
  destruct (Z.ltb_spec (Z.of_nat k) (Z.of_nat (length l))); [|lia].
  simpl. by rewrite Nat2Z.id, Hk.
Qed.

Lemma compare_from_seq big small (k n j0 : nat) :
  j0 + n = length small ->
  k + length small <= length big ->
  compare_from big small (Z.of_nat k) (seq j0 n)
  = Returned (bool_decide (take n (drop (k + j0) big) = drop j0 small)).
Proof.
  revert j0. induction n as [|n IH]; intros j0 Hj0 Hfit.
  - simpl. rewrite bool_decide_true; [done|].
    rewrite (drop_ge small) by lia. by rewrite take_0.
  - cbn [seq compare_from].
    destruct (lookup_lt_is_Some_2 big (k + j0)) as [x Hx]; [lia|].
    destruct (lookup_lt_is_Some_2 small j0) as [y Hy]; [lia|].
    replace (Z.of_nat k + Z.of_nat j0)%Z with (Z.of_nat (k + j0)) by lia.
    rewrite (getitem_lookup _ _ _ Hx), (getitem_lookup _ _ _ Hy).
    cbn [mbind outcome_bind].
    rewrite (drop_S _ _ _ Hx), (drop_S _ _ _ Hy). cbn [take].
    destruct (decide (x <> y)) as [Hne|Heq].
    + rewrite bool_decide_false; [done|]. congruence.
    + apply dec_stable in Heq. subst y.
      rewrite IH by lia. f_equal. replace (k + S j0) with (S (k + j0)) by lia.
      apply bool_decide_ext. split; [congruence|]. intros [= ->]. done.
Qed.

Lemma compare_from_occurs big small (k : nat) :
  k + length small <= length big ->
  compare_from big small (Z.of_nat k) (seq 0 (length small))
  = Returned (bool_decide (occurs_at small big k)).
Proof.
  intros Hfit. rewrite (compare_from_seq big small k (length small) 0) by lia.
  unfold occurs_at. by rewrite Nat.add_0_r.
Qed.

Lemma contains_loop_seq big small (a m : nat) :
  (m = 0 \/ a + m + length small <= S (length big)) ->
  match contains_loop big small (map Z.of_nat (seq a m)) with
  | Returned (Some (i, j)) =>
      exists k, i = Z.of_nat k /\ j = (Z.of_nat k + len small)%Z /\
        a <= k < a + m /\ occurs_at small big k /\
        forall k', a <= k' < k -> ~ occurs_at small big k'
  | Returned None => forall k, a <= k < a + m -> ~ occurs_at small big k
  | Raised _ => False
  end.
Proof.
  revert a. induction m as [|m IH]; intros a Hfit.
  - simpl. intros k Hk. lia.
  - cbn [seq map contains_loop].
    destruct Hfit as [?|Hfit]; [lia|].
    rewrite compare_from_occurs by lia. cbn [mbind outcome_bind].
    destruct (bool_decide_reflect (occurs_at small big a)) as [Ha|Ha].
    + exists a. repeat split; [lia|lia|done|]. intros k' Hk'. lia.
    + specialize (IH (S a)).
      destruct (contains_loop big small (map Z.of_nat (seq (S a) m)))
        as [[[i j]|]|e].
      * destruct IH as (k & -> & -> & Hk & Hocc & Hfirst); [right; lia|].
        exists k. repeat split; [lia|lia|done|].
        intros k' Hk'. destruct (decide (k' = a)) as [->|Hne]; [done|].
        apply Hfirst. lia.
      * intros k Hk. destruct (decide (k = a)) as [->|Hne]; [done|].
        apply IH; [right; lia|lia].
      * apply IH. right. lia.
Qed.

Lemma occurs_at_fits small big (k : nat) :
  small <> [] -> occurs_at small big k -> k + length small <= length big.
Proof.
  unfold occurs_at. intros Hne Hocc.
  assert (Hlen : length (take (length small) (drop k big)) = length small)
    by by rewrite Hocc.
  rewrite length_take, length_drop in Hlen.
  destruct small; [done|]. cbn [length] in *. lia.
Qed.

Lemma contains_outcome small big :
  match contains small big with
  | Returned (Some (i, j)) =>
      small <> [] /\ (0 <= i)%Z /\ j = (i + len small)%Z /\
      occurs_at small big (Z.to_nat i) /\
      forall k, k < Z.to_nat i -> ~ occurs_at small big k
  | Returned None => small = [] \/ forall k, ~ occurs_at small big k
  | Raised _ => False
  end.
Proof.
  unfold contains. destruct (Z.eqb_spec (len small) 0) as [Hz|Hnz].
  { left. unfold len in Hz. destruct small; [done|simpl in Hz; lia]. }
  assert (Hne : small <> []) by (intros ->; done).
  unfold py_range.
  pose proof (contains_loop_seq big small 0
                (Z.to_nat (len big - len small + 1))) as Hloop.
  destruct (contains_loop big small _) as [[[i j]|]|e].
  - destruct Hloop as (k & -> & -> & Hk & Hocc & Hfirst); [unfold len; lia|].
    rewrite Nat2Z.id. repeat split; [done|lia|done|].
    intros k' Hk'. apply Hfirst. lia.
  - right. intros k Hocc. pose proof (occurs_at_fits small big k Hne Hocc).
    apply (Hloop ltac:(unfold len; lia) k); [|done]. unfold len. lia.
  - apply Hloop. unfold len. lia.
Qed.

(** X1. [contains] returns the pair [(i, i + len(small_list))] exactly
    when [small_list] is not empty and [i] is the first offset at which
    [big_list[i:i + len(small_list)]] equals [small_list]. *)
Theorem contains_first_occurrence small big (i j : Z) :
  contains small big = Returned (Some (i, j)) <->
  small <> [] /\ (0 <= i)%Z /\ j = (i + len small)%Z /\
  occurs_at small big (Z.to_nat i) /\
  forall k, k < Z.to_nat i -> ~ occurs_at small big k.
Proof.
  pose proof (contains_outcome small big) as Hout. split.
  - intros Heq. by rewrite Heq in Hout.
  - intros (Hne & Hi & -> & Hocc & Hfirst).
    destruct (contains small big) as [[[i' j']|]|e]; [| |done].
    + destruct Hout as (_ & Hi' & -> & Hocc' & Hfirst').
      assert (Z.to_nat i = Z.to_nat i') as Heq.
      { destruct (Nat.lt_trichotomy (Z.to_nat i) (Z.to_nat i')) as [Hlt|[?|Hlt]];
          [by apply Hfirst' in Hlt|done|by apply Hfirst in Hlt]. }
      assert (i = i') as -> by lia. done.
    + destruct Hout as [?|Hnone]; [done|]. by apply Hnone in Hocc.
Qed.

(** X2. [contains] never fails on an index; it returns [False] exactly
    when [small_list] is empty or occurs nowhere in [big_list] as a
    contiguous slice (in particular whenever it is the longer list). *)
Theorem contains_false_iff small big :
  (exists r, contains small big = Returned r) /\
  (contains small big = Returned None <->
   small = [] \/ forall k, ~ occurs_at small big k) /\
  (length big < length small -> contains small big = Returned None).
Proof.
  pose proof (contains_outcome small big) as Hout.
  assert (Hiff : contains small big = Returned None <->
                 small = [] \/ forall k, ~ occurs_at small big k).
  { split.
    - intros Heq. by rewrite Heq in Hout.
    - intros Hnone. destruct (contains small big) as [[[i j]|]|e]; [|done|done].
      destruct Hout as (Hne & _ & _ & Hocc & _).
      destruct Hnone as [?|Hnone]; [done|]. by apply Hnone in Hocc. }
  split; [|split; [exact Hiff|]].
  - destruct (contains small big) as [r|e]; [by exists r|done].
  - intros Hlt. apply Hiff. right. intros k Hocc.
    assert (small <> []) by (destruct small; [simpl in Hlt; lia|done]).
    pose proof (occurs_at_fits small big k ltac:(done) Hocc). lia.
Qed.

End contains_facts.

(** ** Squashing and sanitizing names *)

Section names.

Lemma string_map_ext_in (f g : ascii -> ascii) (s : string) :
  (forall c, In c (list_ascii_of_string s) -> f c = g c) ->
  string_map f s = string_map g s.
Proof.
  induction s as [|c s IH]; intros Hfg; simpl; [done|].
  rewrite (Hfg c) by (simpl; auto). rewrite IH; [done|].
  intros c' Hc'. apply Hfg. simpl. auto.
Qed.

Lemma string_map_map (f g : ascii -> ascii) (s : string) :
  string_map f (string_map g s) = string_map (fun c => f (g c)) s.
Proof. induction s as [|c s IH]; simpl; [done|by rewrite IH]. Qed.

Lemma string_map_id (s : string) : string_map (fun c => c) s = s.
Proof. induction s as [|c s IH]; simpl; [done|by rewrite IH]. Qed.



Lemma prefix_empty (s : string) : String.prefix "" s = true.
Proof. by destruct s. Qed.

(** Replacing a one-character string by '_' works character by
    character. *)
Lemma str_replace_char (cur : string) (ch : ascii) :
  str_replace cur (String ch EmptyString) "_"
  = string_map (fun c => if Ascii.eqb c ch then "_"%char else c) cur.
Proof.
  unfold str_replace. induction cur as [|c cur IH]; [done|].
  cbn [replace_from string_map String.prefix String.length Nat.sub].
  destruct (ascii_dec ch c) as [->|Hne].
  - rewrite Ascii.eqb_refl, prefix_empty. cbn. by rewrite IH.
  - destruct (Ascii.eqb_spec c ch) as [->|_]; [done|]. by rewrite IH.
Qed.

Lemma masked_step (seen : list ascii) (ch c : ascii) :
  is_alnum ch = false ->
  (if Ascii.eqb (masked seen c) ch then "_"%char else masked seen c)
  = masked (seen ++ [ch]) c.
Proof.
  intros Hch. unfold masked. rewrite existsb_app. cbn [existsb].
  rewrite orb_false_r.
  destruct (is_alnum c) eqn:Hc; cbn [negb andb].
  - destruct (Ascii.eqb_spec c ch) as [->|_]; [congruence|done].
  - destruct (existsb (Ascii.eqb c) seen); cbn [orb].
    + by destruct (Ascii.eqb "_"%char ch).
    + by destruct (Ascii.eqb c ch).
Qed.

Lemma masked_alnum_step (seen : list ascii) (ch c : ascii) :
  is_alnum ch = true -> masked seen c = masked (seen ++ [ch]) c.
Proof.
  intros Hch. unfold masked. rewrite existsb_app. cbn [existsb].
  rewrite orb_false_r.
  destruct (is_alnum c) eqn:Hc; cbn [negb andb]; [done|].
  destruct (Ascii.eqb_spec c ch) as [->|_]; [congruence|].
  by rewrite orb_false_r.
Qed.

Lemma pyvar_loop (chars seen : list ascii) (s : string) :
  fold_left
    (fun cur ch =>
       if is_alnum ch then cur
       else str_replace cur (String ch EmptyString) "_")
    chars (string_map (masked seen) s)
  = string_map (masked (seen ++ chars)) s.
Proof.
  revert seen. induction chars as [|ch chars IH]; intros seen; simpl.
  - by rewrite app_nil_r.
  - replace (seen ++ ch :: chars) with ((seen ++ [ch]) ++ chars)
      by by rewrite <- app_assoc.
    rewrite <- IH. f_equal.
    destruct (is_alnum ch) eqn:Hch.
    + apply string_map_ext_in. intros c _. by apply masked_alnum_step.
    + rewrite str_replace_char, string_map_map.
      apply string_map_ext_in. intros c _. by apply masked_step.
Qed.

Lemma existsb_eqb_In (c : ascii) (l : list ascii) :
  In c l -> existsb (Ascii.eqb c) l = true.
Proof.
  intros Hin. apply existsb_exists. exists c. split; [done|apply Ascii.eqb_refl].
Qed.



Lemma pyvar_string_map (s : string) : pyvar s = string_map pyvar_char s.
Proof.
  unfold pyvar.
  rewrite <- (string_map_id s) at 2.
  rewrite (string_map_ext_in (fun c => c) (masked []) s)
    by (intros c _; unfold masked; cbn [existsb]; by rewrite andb_false_r).
  rewrite pyvar_loop. simpl. apply string_map_ext_in. intros c Hc.
  unfold masked, pyvar_char. rewrite (existsb_eqb_In c _ Hc).
  by destruct (is_alnum c).
Qed.


(** *** [squashstr] *)

Lemma append_cons (c : ascii) (s t : string) :
  String c s +:+ t = String c (s +:+ t).
Proof. reflexivity. Qed.

Lemma append_empty_r (s : string) : s +:+ "" = s.
Proof. induction s as [|c s IH]; [done|by rewrite append_cons, IH]. Qed.

Lemma concat_empty_cons (x : string) (xs : list string) :
  String.concat "" (x :: xs) = x +:+ String.concat "" xs.
Proof. destruct xs; simpl; [by rewrite append_empty_r|done]. Qed.







Lemma string_forall_filter (P : ascii -> bool) (s : string) :
  string_forall P (string_filter P s) = true.
Proof.
  induction s as [|c s IH]; simpl; [done|].
  destruct (P c) eqn:Hc; simpl; [by rewrite Hc|done].
Qed.



End names.

(** ** The labels used by factor queries *)

Section query_columns.

Lemma prefix_split (p s : string) :
  String.prefix p s = true -> exists t, s = p +:+ t.
Proof.
  revert s. induction p as [|a p IH]; intros s Hp.
  - by exists s.
  - destruct s as [|b s]; [done|]. simpl in Hp.
    destruct (ascii_dec a b) as [->|]; [|done].
    destruct (IH s Hp) as [t ->]. by exists t.
Qed.

Lemma string_map_append (f : ascii -> ascii) (s t : string) :
  string_map f (s +:+ t) = string_map f s +:+ string_map f t.
Proof.
  induction s as [|c s IH]; [done|].
  rewrite append_cons. simpl. by rewrite IH, append_cons.
Qed.

(** A sanitized factor header is no longer a factor header, nor a key of
    the casting map. *)
Lemma pyvar_factor_header (t : string) :
  exists u, pyvar ("Factor Value[" +:+ t) = "Factor_Value_" +:+ u.
Proof.
  exists (string_map pyvar_char t).
  by rewrite pyvar_string_map, string_map_append.
Qed.

Lemma recast_one_idempotent (x : string) : recast_one (recast_one x) = recast_one x.
Proof.
  unfold recast_one.
  destruct (String.eqb_spec x "Material Type") as [->|]; [done|].
  destruct (String.eqb_spec x "Date") as [->|]; [done|].
  destruct (String.eqb_spec x "Performer") as [->|]; [done|].
  destruct (String.eqb_spec x "Material Type"); [done|].
  destruct (String.eqb_spec x "Date"); [done|].
  by destruct (String.eqb_spec x "Performer").
Qed.

Lemma recast_columns_map (columns : list string) :
  recast_columns columns = map recast_one columns.
Proof.
  unfold recast_columns, casting_map; simpl.
  rewrite !map_map. apply map_ext. intros x. apply recast_step_compose.
Qed.

(** X5. Renaming the columns for a factor query is stable: applied to
    its own result it changes nothing, so the repetition of the renaming
    at every turn of the query loop of the study design report leaves the
    labels as the first turn set them. *)
Theorem factor_query_columns_idempotent (columns : list string) :
  length (factor_query_columns columns) = length columns /\
  factor_query_columns (factor_query_columns columns) = factor_query_columns columns.
Proof.
  unfold factor_query_columns. rewrite !recast_columns_map.
  split; [by rewrite !length_map|].
  rewrite !map_map. apply map_ext. intros x.
  destruct (startswith (recast_one x) "Factor Value[") eqn:Hfv.
  - apply prefix_split in Hfv as [t Ht]. rewrite Ht.
    destruct (pyvar_factor_header t) as [u ->]. reflexivity.
  - by rewrite recast_one_idempotent, Hfv.
Qed.

End query_columns.

(** ** Unused protocols *)

Section protocols.

Lemma discard_executed_fold (processes : list Process) (unused : gset string) :
  fold_left discard_executed processes unused
  = unused ∖ list_to_set
               (map (fun process => protocol_name (executes_protocol process))
                    processes).
Proof.
  revert unused. induction processes as [|p processes IH]; intros unused.
  - simpl. apply set_eq. intros x. rewrite elem_of_difference, elem_of_empty. tauto.
  - cbn [fold_left map]. rewrite IH. unfold discard_executed.
    apply set_eq. intros x. rewrite list_to_set_cons.
    destruct (decide (protocol_name (executes_protocol p) ∈ unused)) as [Hin|Hnin];
      rewrite !elem_of_difference, elem_of_union, elem_of_singleton.
    + rewrite ?elem_of_difference, ?elem_of_singleton. tauto.
    + split; [|tauto]. intros [Hx Hnot]. split; [done|].
      intros [->|?]; [done|by apply Hnot].
Qed.

Lemma discard_executed_assays (assays : list (list Process)) (unused : gset string) :
  fold_left (fun unused process_sequence =>
               fold_left discard_executed process_sequence unused)
            assays unused
  = unused ∖ list_to_set
               (map (fun process => protocol_name (executes_protocol process))
                    (concat assays)).
Proof.
  revert unused. induction assays as [|a assays IH]; intros unused.
  - simpl. apply set_eq. intros x. rewrite elem_of_difference, elem_of_empty. tauto.
  - cbn [fold_left concat]. rewrite IH, discard_executed_fold.
    apply set_eq. intros x.
    rewrite map_app, list_to_set_app, !elem_of_difference, elem_of_union. tauto.
Qed.

Lemma keep_loop_filter (unused : gset string) (protocols acc : list Protocol) :
  fold_left
    (fun clean_protocols_list protocol =>
       if decide (protocol_name protocol ∉ unused)
       then clean_protocols_list ++ [protocol]
       else clean_protocols_list)
    protocols acc
  = acc ++ filter (fun protocol => protocol_name protocol ∉ unused) protocols.
Proof.
  revert acc. induction protocols as [|p protocols IH]; intros acc; simpl.
  - by rewrite app_nil_r.
  - rewrite IH, filter_cons.
    destruct (decide (protocol_name p ∉ unused)); [by rewrite <- app_assoc|done].
Qed.

Lemma filter_iff_in {A : Type} (P Q : A -> Prop)
    `{forall x, Decision (P x)} `{forall x, Decision (Q x)} (l : list A) :
  (forall x, x ∈ l -> P x <-> Q x) -> filter P l = filter Q l.
Proof.
  induction l as [|x l IH]; intros HPQ; [done|].
  rewrite !filter_cons.
  pose proof (HPQ x (list_elem_of_here _ _)) as Hx.
  rewrite IH by (intros y Hy; apply HPQ; by apply list_elem_of_further).
  destruct (decide (P x)), (decide (Q x)); tauto || done.
Qed.

Lemma clean_protocols_filter (study : ProtocolStudy) :
  clean_protocols study
  = filter (fun protocol => protocol_name protocol ∈ executed_names study)
           (ps_protocols study).
Proof.
  unfold clean_protocols. rewrite keep_loop_filter. simpl.
  rewrite discard_executed_assays, discard_executed_fold.
  apply filter_iff_in. intros p Hp.
  unfold executed_names. rewrite map_app, elem_of_app.
  rewrite !elem_of_difference, !elem_of_list_to_set.
  assert (protocol_name p ∈ map protocol_name (ps_protocols study))
    by (apply list_elem_of_fmap; by exists p).
  split.
  - intros Hnot.
    destruct (decide (protocol_name p ∈
      map (fun process => protocol_name (executes_protocol process))
          (ps_process_sequence study))) as [?|Hn1]; [by left|].
    destruct (decide (protocol_name p ∈
      map (fun process => protocol_name (executes_protocol process))
          (concat (ps_assay_process_sequences study)))) as [?|Hn2]; [by right|].
    exfalso. apply Hnot. done.
  - intros [?|?] [[_ ?] ?]; done.
Qed.

(** X6. [remove_unused_protocols] keeps, in their order, exactly the
    declared protocols whose name is the name of the protocol executed by
    some process of the study table or of one of the study's assay
    tables; running it again on its result removes nothing more. *)
Theorem remove_unused_protocols_keeps_executed (studies : list ProtocolStudy) :
  map ps_protocols (remove_unused_protocols studies)
  = map (fun study =>
           filter (fun protocol => protocol_name protocol ∈ executed_names study)
                  (ps_protocols study))
        studies
  /\ remove_unused_protocols (remove_unused_protocols studies)
     = remove_unused_protocols studies.
Proof.
  unfold remove_unused_protocols. split.
  - rewrite map_map. apply map_ext. intros study. apply clean_protocols_filter.
  - rewrite map_map. apply map_ext. intros study. f_equal.
    rewrite !clean_protocols_filter. cbn [ps_protocols].
    unfold executed_names at 1. cbn [ps_process_sequence ps_assay_process_sequences].
    fold (executed_names study). apply list_filter_filter_l. done.
Qed.

End protocols.

(** ** Statistics *)

Section stats.

Lemma reduce_stays_raised (function : stat_value -> stat_value -> stat_outcome)
    (rest : list stat_value) (e : stat_exn) :
  fold_left
    (fun accumulated y =>
       match accumulated with
       | StatReturned x => function x y
       | StatRaised e => StatRaised e
       end)
    rest (StatRaised e)
  = StatRaised e.
Proof. induction rest as [|y rest IH]; simpl; [done|exact IH]. Qed.

(** X7. The total of study assays that [compute_stats] prints is a sum
    only for an investigation with exactly two studies. With no study
    [reduce] raises [TypeError]; with one study it returns the study
    object itself; with three or more the second call of the lambda reads
    [.assays] on the integer accumulated so far and raises
    [AttributeError]. *)
Theorem total_study_assays_by_study_count (isa : Investigation) :
  total_study_assays isa
  = match studies isa with
    | [] => StatRaised ReduceEmptyTypeError
    | [s] => StatReturned (StatStudy s)
    | [s1; s2] => StatReturned (StatInt (len (assays s1) + len (assays s2)))
    | _ :: _ :: _ :: _ => StatRaised IntAttributeError
    end.
Proof.
  unfold total_study_assays, py_reduce.
  destruct (studies isa) as [|s1 [|s2 [|s3 rest]]]; [done..|].
  cbn [map fold_left add_assay_counts]. apply reduce_stays_raised.
Qed.

End stats.

(** ** Batch fixing with the settings the code expects *)

Section batch_calls.

Context {World : Type}.
Variable fix_as_source_characteristic :
  string -> pyval -> World -> World * outcome unit.
Variable fix_as_protocol_parameter_value :
  string -> pyval -> pyval -> World -> World * outcome unit.

Lemma dict_get_NoDup {V : Type} (d : list (string * V)) (k : string) (v : V) :
  NoDup d.*1 -> (k, v) ∈ d -> dict_get k d = Some v.
Proof.
  induction d as [|[k' v'] d IH]; intros Hnd Hin; [by apply elem_of_nil in Hin|].
  rewrite fmap_cons in Hnd. apply NoDup_cons in Hnd as [Hk' Hnd].
  simpl. apply elem_of_cons in Hin as [[= -> ->]|Hin].
  - by rewrite String.eqb_refl.
  - destruct (String.eqb_spec k' k) as [->|_]; [|by apply IH].
    exfalso. apply Hk'. apply list_elem_of_fmap. by exists (k, v).
Qed.

Lemma fix_factor_returns (path : string) (factor_name protocol_ref : pyval)
    (st : FixState) :
  (forall p f w, (fix_as_source_characteristic p f w).2 = Returned tt) ->
  (forall p f r w, (fix_as_protocol_parameter_value p f r w).2 = Returned tt) ->
  exists w,
    fix_factor fix_as_source_characteristic fix_as_protocol_parameter_value
               path factor_name protocol_ref st
    = ({| printed := printed st;
          fix_calls := fix_calls st ++ [(path, factor_name, protocol_ref)];
          world := w |}, Returned tt).
Proof.
  intros Hsc Hpp. unfold fix_factor. cbn [printed fix_calls world].
  destruct protocol_ref as [|r|items|entries].
  - specialize (Hsc path factor_name (world st)).
    destruct (fix_as_source_characteristic path factor_name (world st)) as [w o].
    simpl in Hsc. subst o. by exists w.
  - specialize (Hpp path factor_name (PyStr r) (world st)).
    destruct (fix_as_protocol_parameter_value _ _ _ _) as [w o].
    simpl in Hpp. subst o. by exists w.
  - specialize (Hpp path factor_name (PyList items) (world st)).
    destruct (fix_as_protocol_parameter_value _ _ _ _) as [w o].
    simpl in Hpp. subst o. by exists w.
  - specialize (Hpp path factor_name (PyDict entries) (world st)).
    destruct (fix_as_protocol_parameter_value _ _ _ _) as [w o].
    simpl in Hpp. subst o. by exists w.
Qed.

Lemma batch_fix_loop_calls (settings rest : list (string * pyval))
    (calls : list (string * pyval * pyval)) (st : FixState) :
  NoDup settings.*1 ->
  (forall kv, kv ∈ rest -> kv ∈ settings) ->
  Forall2 (fun kv call =>
             call.1.1 = kv.1 /\
             getitem_str kv.2 "factor" = Returned call.1.2 /\
             getitem_str kv.2 "protocol_ref" = Returned call.2)
          rest calls ->
  (forall p f w, (fix_as_source_characteristic p f w).2 = Returned tt) ->
  (forall p f r w, (fix_as_protocol_parameter_value p f r w).2 = Returned tt) ->
  exists w,
    batch_fix_loop fix_as_source_characteristic fix_as_protocol_parameter_value
                   settings rest.*1 st
    = ({| printed := printed st
                     ++ map (fun kv => "Fixing " +:+ kv.1 +:+ "...") rest;
          fix_calls := fix_calls st ++ calls;
          world := w |}, Returned tt).
Proof.
  intros Hnd Hsub Hcalls Hsc Hpp. revert st.
  induction Hcalls as [|[path v] [[path' f] r] rest calls (Hp & Hf & Hr) Hrest IH];
    intros st.
  - exists (world st). simpl. rewrite !app_nil_r. by destruct st.
  - simpl in Hp, Hf, Hr. subst path'.
    rewrite fmap_cons. cbn [fst batch_fix_loop]. unfold batch_fix_one.
    rewrite (dict_get_NoDup settings path v Hnd)
      by (apply Hsub, list_elem_of_here).
    cbn [mbind outcome_bind]. rewrite Hf. cbn [mbind outcome_bind].
    rewrite Hr. cbn [mbind outcome_bind mret outcome_ret].
    edestruct (fix_factor_returns path f r) as [w ->]; [done|done|].
    cbn [printed fix_calls world].
    edestruct IH as [w' ->].
    { intros kv Hkv. apply Hsub. by apply list_elem_of_further. }
    exists w'. cbn [printed fix_calls world map fst].
    by rewrite <- !app_assoc.
Qed.

(** X8. On a settings mapping whose every value is a dict with the keys
    'factor' and 'protocol_ref', and with fixes that return normally,
    [batch_fix_isatabs] announces and fixes every table file once, in the
    order of the keys, passing the two values of its dict. *)
Theorem batch_fix_isatabs_calls_in_order (settings : list (string * pyval))
    (calls : list (string * pyval * pyval)) (st : FixState) :
  NoDup settings.*1 ->
  Forall2 (fun kv call =>
             call.1.1 = kv.1 /\
             getitem_str kv.2 "factor" = Returned call.1.2 /\
             getitem_str kv.2 "protocol_ref" = Returned call.2)
          settings calls ->
  (forall p f w, (fix_as_source_characteristic p f w).2 = Returned tt) ->
  (forall p f r w, (fix_as_protocol_parameter_value p f r w).2 = Returned tt) ->
  exists w,
    batch_fix_isatabs fix_as_source_characteristic fix_as_protocol_parameter_value
                      settings st
    = ({| printed := printed st
                     ++ map (fun kv => "Fixing " +:+ kv.1 +:+ "...") settings;
          fix_calls := fix_calls st ++ calls;
          world := w |}, Returned tt).
Proof.
  intros Hnd Hcalls Hsc Hpp. unfold batch_fix_isatabs.
  by apply batch_fix_loop_calls.
Qed.

End batch_calls.

Lemma batch_fix_isatabs_calls_in_order_witness :
  exists w,
    batch_fix_isatabs (World := unit)
      (fun _ _ w => (w, Returned tt)) (fun _ _ _ w => (w, Returned tt))
      well_formed_settings {| printed := []; fix_calls := []; world := tt |}
    = ({| printed := [] ++ map (fun kv => "Fixing " +:+ kv.1 +:+ "...")
                               well_formed_settings;
          fix_calls :=
            [] ++ [ ("/path/to/MTBLS1/s_MTBLS1.txt", PyStr "Gender",
                     PyStr "Sample collection");
                    ("/path/to/MTBLS2/s_MTBL2.txt", PyStr "genotype", PyNone) ];
          world := w |}, Returned tt).
Proof.
  apply (batch_fix_isatabs_calls_in_order
           (fun _ _ w => (w, Returned tt)) (fun _ _ _ w => (w, Returned tt))
           well_formed_settings).
  - apply (bool_decide_unpack _). vm_compute. exact I.
  - repeat constructor.
  - reflexivity.
  - reflexivity.
Defined.

(** ** What the archive holds *)

Section archive_members.

Variable load : InvFile -> outcome Investigation.
Variable d : Directory.



End archive_members.



(** ** The fixer methods on the branches with companion columns *)

Ltac renest := repeat (progress (rewrite <- ?app_assoc; cbn [app])).

Section companions.

Implicit Types (A B C cs : list string) (x fv : string).

Lemma move_companion_block A B C cs x fv :
  companion_branch (A ++ x :: B ++ fv :: cs ++ C) (len A + 1 + len B) cs ->
  move_factor_columns (A ++ x :: B ++ fv :: cs ++ C) (len A + 1 + len B) (len A)
  = Returned (A ++ x :: fv :: cs ++ B ++ C).
Proof.
  intros [[Hlen Hterm]|[(Hlen & Hterm & Hunit_term)|(Hlen & Hterm & Hunit_term & Hunit)]].
  - destruct cs as [|c1 [|c2 [|? ?]]]; try discriminate.
    by apply move_with_term_columns.
  - destruct cs as [|u [|c1 [|c2 [|? ?]]]]; try discriminate.
    by apply move_with_unit_term_columns.
  - destruct cs as [|u [|? ?]]; try discriminate.
    by apply move_with_unit_column.
Qed.

(** Renaming after a move, on labels that cleaning leaves alone. *)
Lemma rename_after_move A B C cs x fv (width : nat) (kind : string) :
  Forall (fun n => clean_field_name n = n) (A ++ x :: fv :: cs ++ B ++ C) ->
  width = length (A ++ x :: fv :: cs ++ B ++ C) ->
  rename_moved_column width (A ++ x :: fv :: cs ++ B ++ C) (len A) kind
  = Returned (A ++ x :: clean_field_name (str_replace fv "Factor Value" kind)
                :: cs ++ B ++ C).
Proof.
  intros Hstable ->. unfold rename_moved_column.
  rewrite (proj2 (clean_stable_Forall _) Hstable).
  rewrite set_columns_same_width by done. cbn [mbind outcome_bind].
  rewrite (getitem_split _ (A ++ [x]) (cs ++ B ++ C) fv);
    [|renest; reflexivity|rewrite len_app, len_cons; unfold len; simpl; lia].
  cbn [mbind outcome_bind].
  rewrite (setitem_split _ (A ++ [x]) (cs ++ B ++ C) fv);
    [|renest; reflexivity|rewrite len_app, len_cons; unfold len; simpl; lia].
  cbn [mbind outcome_bind]. renest.
  rewrite set_columns_same_width.
  - f_equal. unfold clean_isatab_field_names.
    repeat (rewrite Forall_app in Hstable || rewrite Forall_cons in Hstable).
    destruct Hstable as (HA & Hx & Hfv & Hcs & HB & HC).
    apply clean_stable_Forall in HA, HB, Hcs, HC.
    unfold clean_isatab_field_names in HA, HB, Hcs, HC.
    repeat (rewrite map_app || rewrite map_cons).
    by rewrite HA, HB, Hcs, HC, Hx.
  - unfold clean_isatab_field_names. rewrite length_map.
    repeat (rewrite length_app || rewrite length_cons). done.
Qed.

Lemma stable_after_move A B C cs x fv :
  Forall (fun n => clean_field_name n = n) (A ++ x :: B ++ fv :: cs ++ C) ->
  Forall (fun n => clean_field_name n = n) (A ++ x :: fv :: cs ++ B ++ C).
Proof.
  intros H. repeat (rewrite Forall_app in H || rewrite Forall_cons in H).
  repeat (rewrite Forall_app || rewrite Forall_cons). tauto.
Qed.

Lemma length_after_move A B C cs x fv :
  length (A ++ x :: B ++ fv :: cs ++ C) = length (A ++ x :: fv :: cs ++ B ++ C).
Proof. repeat (rewrite length_app || rewrite length_cons). lia. Qed.

(** X11. On a header that cleaning leaves unchanged, when the branch
    taken finds companion columns behind the factor column (Unit; Term
    Source REF and Term Accession; or all three),
    [replace_factor_with_source_characteristic] writes back a header of
    the same length in which the factor column, renamed, and its
    companions stand right behind 'Source Name' in their own order, and
    all other columns keep their relative order. *)
Theorem replace_factor_with_source_characteristic_moves_block
    A B C cs (f : string) :
  let fv := "Factor Value[" +:+ f +:+ "]" in
  let columns := A ++ "Source Name" :: B ++ fv :: cs ++ C in
  clean_isatab_field_names columns = columns ->
  "Source Name" ∉ A -> fv ∉ A -> fv ∉ B ->
  companion_branch columns (len A + 1 + len B) cs ->
  replace_factor_with_source_characteristic columns f
  = Returned (A ++ "Source Name"
                :: clean_field_name (str_replace fv "Factor Value" "Characteristics")
                :: cs ++ B ++ C).
Proof.
  intros fv columns Hclean HsrcA HfvA HfvB Hbranch.
  apply replace_factor_after_move; try done.
  by apply move_companion_block.
Qed.

(** X12. The sibling method does the same behind the column whose index
    is the position of [protocol_ref] in the first data row, renaming
    the factor column to a 'Parameter Value' column. *)
Theorem replace_factor_with_protocol_parameter_value_moves_block
    A B C cs (x f protocol_ref : string) (tfile : list string) :
  let fv := "Factor Value[" +:+ f +:+ "]" in
  let columns := A ++ x :: B ++ fv :: cs ++ C in
  clean_isatab_field_names columns = columns ->
  fv ∉ A -> fv <> x -> fv ∉ B ->
  find_protocol_ref tfile protocol_ref = Returned (len A) ->
  companion_branch columns (len A + 1 + len B) cs ->
  replace_factor_with_protocol_parameter_value columns tfile f protocol_ref
  = Returned (A ++ x
                :: clean_field_name (str_replace fv "Factor Value" "Parameter Value")
                :: cs ++ B ++ C).
Proof.
  intros fv columns Hclean HfvA Hfvx HfvB Hfind Hbranch.
  unfold replace_factor_with_protocol_parameter_value. fold fv. rewrite Hclean.
  assert (Hfi : list_index columns fv = Returned (len A + 1 + len B)%Z).
  { rewrite (list_index_split columns (A ++ x :: B) (cs ++ C) fv).
    - f_equal. rewrite len_app, len_cons. lia.
    - subst columns. renest. reflexivity.
    - rewrite elem_of_app, elem_of_cons. intros [?|[?|?]]; done. }
  rewrite Hfi. cbn [mbind outcome_bind]. rewrite Hfind. cbn [mbind outcome_bind].
  pose proof (len_nonneg A).
  destruct (Z.ltb_spec (len A) 0); [lia|].
  subst columns. rewrite move_companion_block by done. cbn [mbind outcome_bind].
  apply rename_after_move.
  - apply stable_after_move. by apply clean_stable_Forall.
  - apply length_after_move.
Qed.

End companions.

Lemma replace_factor_with_source_characteristic_moves_block_witness :
  replace_factor_with_source_characteristic annotated_header "dose"
  = Returned
      ["Source Name"; "Characteristics[dose]"; "Unit"; "Term Source REF";
       "Term Accession Number"; "Characteristics[organism]"; "Term Source REF";
       "Term Accession Number"; "Protocol REF"; "Sample Name";
       "Factor Value[Gender]"; "Term Source REF"; "Term Accession Number";
       "Factor Value[age]"; "Unit"; "Comment[x]"].
Proof.
  apply (replace_factor_with_source_characteristic_moves_block
           []
           ["Characteristics[organism]"; "Term Source REF"; "Term Accession Number";
            "Protocol REF"; "Sample Name"; "Factor Value[Gender]";
            "Term Source REF"; "Term Accession Number"]
           ["Factor Value[age]"; "Unit"; "Comment[x]"]
           ["Unit"; "Term Source REF"; "Term Accession Number"] "dose").
  - vm_compute. reflexivity.
  - apply (bool_decide_unpack _). vm_compute. exact I.
  - apply (bool_decide_unpack _). vm_compute. exact I.
  - apply (bool_decide_unpack _). vm_compute. exact I.
  - right. left. repeat split; vm_compute; reflexivity.
Defined.

Lemma replace_factor_with_protocol_parameter_value_moves_block_witness :
  replace_factor_with_protocol_parameter_value annotated_header annotated_tfile
    "dose" "Sample collection"
  = Returned
      ["Source Name"; "Characteristics[organism]"; "Term Source REF";
       "Term Accession Number"; "Protocol REF"; "Parameter Value[dose]";
       "Unit"; "Term Source REF"; "Term Accession Number"; "Sample Name";
       "Factor Value[Gender]"; "Term Source REF"; "Term Accession Number";
       "Factor Value[age]"; "Unit"; "Comment[x]"].
Proof.
  apply (replace_factor_with_protocol_parameter_value_moves_block
           ["Source Name"; "Characteristics[organism]"; "Term Source REF";
            "Term Accession Number"]
           ["Sample Name"; "Factor Value[Gender]"; "Term Source REF";
            "Term Accession Number"]
           ["Factor Value[age]"; "Unit"; "Comment[x]"]
           ["Unit"; "Term Source REF"; "Term Accession Number"]
           "Protocol REF" "dose" "Sample collection" annotated_tfile).
  - vm_compute. reflexivity.
  - apply (bool_decide_unpack _). vm_compute. exact I.
  - discriminate.
  - apply (bool_decide_unpack _). vm_compute. exact I.
  - vm_compute. reflexivity.
  - right. left. repeat split; vm_compute; reflexivity.
Defined.

(** ** Where the fixer methods stop on an exception *)

Section fixer_errors.

Implicit Types (A : list string) (fv : string).

Lemma getitem_past_end (l : list string) (i : Z) :
  (len l <= i)%Z -> getitem l i = Raised IndexError.
Proof.
  intros Hi. unfold getitem, normalize_index.
  pose proof (len_nonneg l).
  destruct (Z.ltb_spec i 0); [lia|].
  destruct (Z.ltb_spec i (len l)); [lia|].
  by rewrite andb_false_r.
Qed.

Lemma move_factor_last_column A fv (anchor : Z) :
  move_factor_columns (A ++ [fv]) (len A) anchor = Raised IndexError.
Proof.
  unfold move_factor_columns, has_term_columns.
  assert (Hlen : len (A ++ [fv]) = (len A + 1)%Z)
    by (rewrite len_app, len_cons; unfold len; simpl; lia).
  assert (Hlt : (len A <? len (A ++ [fv]))%Z = true) by (apply Z.ltb_lt; lia).
  rewrite Hlt. rewrite (getitem_past_end (A ++ [fv]) (len A + 1)) by lia. done.
Qed.

(** X13. When the factor column is the last column of the cleaned
    header, both fixer methods stop on [IndexError]: the first guard
    reads the label that would follow the factor column. *)
Theorem fixer_factor_in_last_column_raises
    (columns A : list string) (f : string) :
  let fv := "Factor Value[" +:+ f +:+ "]" in
  clean_isatab_field_names columns = A ++ [fv] ->
  fv ∉ A ->
  ("Source Name" ∈ A ->
   replace_factor_with_source_characteristic columns f = Raised IndexError) /\
  (forall tfile protocol_ref protocol_ref_index,
     find_protocol_ref tfile protocol_ref = Returned protocol_ref_index ->
     replace_factor_with_protocol_parameter_value columns tfile f protocol_ref
     = Raised IndexError).
Proof.
  intros fv Hclean HfvA.
  assert (Hfi : list_index (A ++ [fv]) fv = Returned (len A))
    by by apply (list_index_split _ A []).
  split.
  - intros Hsrc. unfold replace_factor_with_source_characteristic.
    fold fv. rewrite Hclean, Hfi. cbn [mbind outcome_bind].
    pose proof (list_index_outcome (A ++ [fv]) "Source Name") as Hsi.
    destruct (list_index (A ++ [fv]) "Source Name") as [s|e].
    + cbn [mbind outcome_bind]. by rewrite move_factor_last_column.
    + destruct Hsi as [_ Hnin]. exfalso. apply Hnin.
      apply elem_of_app. by left.
  - intros tfile protocol_ref z Hfind.
    unfold replace_factor_with_protocol_parameter_value.
    fold fv. rewrite Hclean, Hfi. cbn [mbind outcome_bind].
    rewrite Hfind. cbn [mbind outcome_bind].
    pose proof (find_protocol_ref_outcome tfile protocol_ref) as Hz.
    rewrite Hfind in Hz. destruct (Z.ltb_spec z 0); [lia|].
    by rewrite move_factor_last_column.
Qed.

(** X14. A table without the factor column makes both methods raise
    [ValueError], and so does a table without a 'Source Name' column for
    [replace_factor_with_source_characteristic]: [list.index] fails before
    any column is moved. *)
Theorem fixer_missing_column_raises (columns : list string) (f : string) :
  let fv := "Factor Value[" +:+ f +:+ "]" in
  (fv ∉ clean_isatab_field_names columns ->
   replace_factor_with_source_characteristic columns f = Raised ValueError /\
   forall tfile protocol_ref,
     replace_factor_with_protocol_parameter_value columns tfile f protocol_ref
     = Raised ValueError) /\
  ("Source Name" ∉ clean_isatab_field_names columns ->
   replace_factor_with_source_characteristic columns f = Raised ValueError).
Proof.
  intros fv. split.
  - intros Hnin.
    pose proof (list_index_outcome (clean_isatab_field_names columns) fv) as Hfi.
    unfold replace_factor_with_source_characteristic,
      replace_factor_with_protocol_parameter_value. fold fv.
    destruct (list_index (clean_isatab_field_names columns) fv) as [z|e].
    + destruct Hfi as (_ & Hz & _). exfalso. apply Hnin.
      by eapply list_elem_of_lookup_2.
    + destruct Hfi as [-> _]. done.
  - intros Hnin.
    pose proof (list_index_outcome (clean_isatab_field_names columns) "Source Name")
      as Hsi.
    unfold replace_factor_with_source_characteristic. fold fv.
    pose proof (list_index_outcome (clean_isatab_field_names columns) fv) as Hfi.
    destruct (list_index (clean_isatab_field_names columns) fv) as [z|e].
    + cbn [mbind outcome_bind].
      destruct (list_index (clean_isatab_field_names columns) "Source Name")
        as [s|e].
      * destruct Hsi as (_ & Hs & _). exfalso. apply Hnin.
        by eapply list_elem_of_lookup_2.
      * destruct Hsi as [-> _]. done.
    + destruct Hfi as [-> _]. done.
Qed.

End fixer_errors.

Lemma fixer_factor_in_last_column_raises_witness :
  replace_factor_with_source_characteristic plain_factor_header "replicate"
  = Raised IndexError /\
  replace_factor_with_protocol_parameter_value plain_factor_header annotated_tfile
    "replicate" "Sample collection"
  = Raised IndexError.
Proof.
  destruct (fixer_factor_in_last_column_raises plain_factor_header
              ["Source Name"; "Characteristics[organism]"; "Protocol REF";
               "Sample Name"; "Factor Value[genotype]"] "replicate")
    as [Hsource Hprotocol].
  - vm_compute. reflexivity.
  - apply (bool_decide_unpack _). vm_compute. exact I.
  - split.
    + apply Hsource. apply (bool_decide_unpack _). vm_compute. exact I.
    + apply (Hprotocol annotated_tfile "Sample collection" 4%Z).
      vm_compute. reflexivity.
Defined.

Lemma fixer_missing_column_raises_witness :
  replace_factor_with_source_characteristic plain_factor_header "dose"
  = Raised ValueError /\
  replace_factor_with_source_characteristic
    ["Sample Name"; "Factor Value[dose]"; "Unit"] "dose"
  = Raised ValueError.
Proof.
  split.
  - refine (proj1 (proj1 (fixer_missing_column_raises plain_factor_header "dose") _)).
    apply (bool_decide_unpack _). vm_compute. exact I.
  - refine (proj2 (fixer_missing_column_raises
                     ["Sample Name"; "Factor Value[dose]"; "Unit"] "dose") _).
    apply (bool_decide_unpack _). vm_compute. exact I.
Defined.

(** ** Reading the first data row *)

Section data_row.

Lemma split_char_nonempty (sep : ascii) (s : string) : split_char sep s <> [].
Proof.
  induction s as [|c s IH]; simpl; [done|].
  destruct (Ascii.eqb c sep); [done|]. by destruct (split_char sep s).
Qed.

(** [(a + sep + b).split(sep) == a.split(sep) + b.split(sep)] *)
Lemma split_char_append (sep : ascii) (a b : string) :
  split_char sep (a +:+ String sep b) = split_char sep a ++ split_char sep b.
Proof.
  induction a as [|c a IH].
  - change ("" +:+ String sep b) with (String sep b). simpl.
    by rewrite Ascii.eqb_refl.
  - rewrite append_cons. simpl. rewrite IH.
    destruct (Ascii.eqb c sep); [done|].
    pose proof (split_char_nonempty sep a).
    by destruct (split_char sep a).
Qed.

Lemma strip_quotes_raises (x : string) :
  raises_only (fun e => e = IndexError) (strip_quotes x).
Proof.
  destruct x as [|c x]; simpl.
  - by apply raises_only_raised.
  - destruct (_ && _); apply raises_only_returned.
Qed.

Lemma map_outcome_returned {A B : Type} (f : A -> outcome B) (l : list A)
    (ys : list B) :
  map_outcome f l = Returned ys -> forall x, x ∈ l -> exists y, f x = Returned y.
Proof.
  revert ys. induction l as [|a l IH]; intros ys Hret x Hx;
    [by apply elem_of_nil in Hx|].
  simpl in Hret. destruct (f a) as [y|e] eqn:Ha; [|done].
  simpl in Hret. destruct (map_outcome f l) as [ys'|e] eqn:Hl; [|done].
  apply elem_of_cons in Hx as [->|Hx]; [by exists y|]. by eapply IH.
Qed.

Lemma map_outcome_strip_quotes_raises (l : list string) :
  raises_only (fun e => e = IndexError) (map_outcome strip_quotes l).
Proof.
  induction l as [|x l IH]; simpl; [apply raises_only_returned|].
  apply raises_only_bind; [apply strip_quotes_raises|]. intros y.
  apply raises_only_bind; [exact IH|]. intros ys. apply raises_only_ret.
Qed.

(** X15. A blank cell in the first data row makes
    [replace_factor_with_protocol_parameter_value] fail before anything
    is looked up: the lambda that strips the quotes reads [x[0]] on the
    empty string, so [IndexError] is raised whether or not [protocol_ref]
    occurs in the row.  Two tabs in a row are enough for a blank cell. *)
Theorem find_protocol_ref_blank_cell
    (header line1 : string) (rest : list string) (protocol_ref : string) :
  "" ∈ split_char tab line1 ->
  find_protocol_ref (header :: line1 :: rest) protocol_ref = Raised IndexError
  /\ (forall columns factor_name,
        "Factor Value[" +:+ factor_name +:+ "]" ∈ clean_isatab_field_names columns ->
        replace_factor_with_protocol_parameter_value
          columns (header :: line1 :: rest) factor_name protocol_ref
        = Raised IndexError)
  /\ (forall a b, "" ∈ split_char tab (a +:+ String tab (String tab b))).
Proof.
  intros Hblank.
  assert (Hfind : find_protocol_ref (header :: line1 :: rest) protocol_ref
                  = Raised IndexError).
  { unfold find_protocol_ref.
    pose proof (map_outcome_strip_quotes_raises (split_char tab line1)) as Hraise.
    destruct (map_outcome strip_quotes (split_char tab line1)) as [cells|e] eqn:Hmap.
    - destruct (map_outcome_returned _ _ _ Hmap "" Hblank) as [y Hy]. done.
    - by rewrite (Hraise e eq_refl). }
  split; [exact Hfind|]. split.
  - intros columns factor_name Hfactor.
    unfold replace_factor_with_protocol_parameter_value.
    pose proof (list_index_outcome (clean_isatab_field_names columns)
                  ("Factor Value[" +:+ factor_name +:+ "]")) as Hfi.
    destruct (list_index (clean_isatab_field_names columns) _) as [z|e].
    + cbn [mbind outcome_bind]. by rewrite Hfind.
    + destruct Hfi as [_ Hnin]. done.
  - intros a b. rewrite split_char_append. apply elem_of_app. right.
    cbn [split_char]. rewrite Ascii.eqb_refl. apply list_elem_of_here.
Qed.

Lemma get_append_length (s t : string) (c : ascii) :
  String.get (String.length s) (s +:+ String c t) = Some c.
Proof. induction s as [|a s IH]; [done|]. rewrite append_cons. exact IH. Qed.

(** X16. The lambda applied to the cells removes one pair of enclosing
    double quotes and returns every other non-empty cell as it is. *)
Theorem strip_quotes_unquotes (s : string) :
  strip_quotes (String double_quote (s +:+ String double_quote ""))
  = Returned s
  /\ (forall c rest, c <> double_quote ->
        strip_quotes (String c rest) = Returned (String c rest))
  /\ strip_quotes "" = Raised IndexError.
Proof.
  split; [|split; [|done]].
  - unfold strip_quotes. rewrite Ascii.eqb_refl. cbn [andb].
    assert (Hlen : String.length (String double_quote (s +:+ String double_quote ""))
                   = S (S (String.length s))).
    { simpl. rewrite length_append. simpl. lia. }
    rewrite Hlen. replace (S (S (String.length s)) - 1) with (S (String.length s)) by lia.
    replace (S (S (String.length s)) - 2) with (String.length s) by lia.
    change (String.get (S (String.length s))
              (String double_quote (s +:+ String double_quote "")))
      with (String.get (String.length s) (s +:+ String double_quote "")).
    rewrite get_append_length, Ascii.eqb_refl.
    change (String.substring 1 (String.length s)
              (String double_quote (s +:+ String double_quote "")))
      with (String.substring 0 (String.length s) (s +:+ String double_quote "")).
    by rewrite substring_0_app.
  - intros c rest Hc. unfold strip_quotes.
    destruct (Ascii.eqb_spec c double_quote) as [->|_]; [done|]. done.
Qed.

End data_row.

Lemma find_protocol_ref_blank_cell_witness :
  find_protocol_ref
    [ "Source Name" +:+ String tab "Protocol REF";
      "source1" +:+ String tab (String tab "Sample collection") ]
    "Sample collection"
  = Raised IndexError.
Proof.
  refine (proj1 (find_protocol_ref_blank_cell _ _ [] "Sample collection" _)).
  apply (bool_decide_unpack _). vm_compute. exact I.
Defined.

(** ** What every study group report satisfies *)

Section report_invariants.

Context {Cell : Type} `{EqDecision Cell}.
Variable str : Cell -> string.

Implicit Types (df : DataFrame Cell) (fal : list (string * gset string)).






End report_invariants.


(** ** Column names for Python *)

Section pyisatabify_facts.














Lemma append_assoc (a b c : string) : (a +:+ b) +:+ c = a +:+ (b +:+ c).
Proof. induction a as [|x a IH]; [done|]. by rewrite !append_cons, IH. Qed.





End pyisatabify_facts.


(** ** The validation report as CSV *)

Section report_csv_facts.

Context {Value : Type}.
Variable format_value : Value -> string.

Lemma concat_empty_app (l1 l2 : list string) :
  String.concat "" (l1 ++ l2) = String.concat "" l1 +:+ String.concat "" l2.
Proof.
  induction l1 as [|x l1 IH]; [done|].
  change ((x :: l1) ++ l2) with (x :: (l1 ++ l2)).
  by rewrite !concat_empty_cons, IH, append_assoc.
Qed.

Lemma format_entries_fold (entries : list (ReportEntry Value)) (output : string) :
  fold_left (fun output e => output +:+ format_entry format_value e) entries output
  = output +:+ String.concat "" (map (format_entry format_value) entries).
Proof.
  revert output. induction entries as [|e entries IH]; intros output.
  - by rewrite append_empty_r.
  - cbn [fold_left map]. by rewrite IH, concat_empty_cons, append_assoc.
Qed.

(** X20. The CSV text is the line 'Validation=success' when the
    validation finished, followed by one line per warning and then one
    line per error, all in the same format: a report gives the same text
    as the report that lists its errors after its warnings as further
    warnings. *)
Theorem format_report_csv_merges (report : ValidationReport Value) :
  format_report_csv format_value report
  = (if validation_finished report
     then "Validation=success" +:+ String newline "" else "")
    +:+ String.concat ""
          (map (format_entry format_value)
               (report_warnings report ++ report_errors report))
  /\ format_report_csv format_value report
     = format_report_csv format_value
         {| validation_finished := validation_finished report;
            report_warnings := report_warnings report ++ report_errors report;
            report_errors := [] |}.
Proof.
  assert (Hlines : forall r : ValidationReport Value,
    format_report_csv format_value r
    = (if validation_finished r
       then "Validation=success" +:+ String newline "" else "")
      +:+ String.concat ""
            (map (format_entry format_value) (report_warnings r ++ report_errors r))).
  { intros r. unfold format_report_csv.
    by rewrite !format_entries_fold, map_app, concat_empty_app, append_assoc. }
  split; [apply Hlines|]. rewrite !Hlines.
  cbn [validation_finished report_warnings report_errors]. by rewrite app_nil_r.
Qed.

End report_csv_facts.

(** ** Names that pandas has numbered *)

Section numbered_names.

Lemma rindex_char_absent (c : ascii) (s : string) :
  string_forall (fun a => negb (Ascii.eqb a c)) s = true -> rindex_char c s = None.
Proof.
  induction s as [|a s IH]; [done|]. cbn [string_forall rindex_char].
  intros [Ha Hs]%andb_prop. rewrite (IH Hs).
  by destruct (Ascii.eqb a c).
Qed.

Lemma rindex_char_append (c : ascii) (a n : string) :
  string_forall (fun x => negb (Ascii.eqb x c)) n = true ->
  rindex_char c (a +:+ String c n) = Some (String.length a).
Proof.
  intros Hn. induction a as [|x a IH].
  - change ("" +:+ String c n) with (String c n). cbn [rindex_char].
    by rewrite (rindex_char_absent c n Hn), Ascii.eqb_refl.
  - rewrite append_cons. cbn [rindex_char String.length]. by rewrite IH.
Qed.

Lemma after_last_dot_append (a n : string) :
  string_forall (fun x => negb (Ascii.eqb x ".")) n = true ->
  after_last_dot (a +:+ String "." n) = n.
Proof.
  intros Hn. unfold after_last_dot. rewrite (rindex_char_append "." a n Hn).
  unfold slice_from.
  replace (a +:+ String "." n) with ((a +:+ ".") +:+ n) by by rewrite append_assoc.
  rewrite length_append.
  replace (String.length a + 1) with (String.length (a +:+ "."))
    by (rewrite length_append; done).
  replace (String.length (a +:+ ".") + String.length n - String.length (a +:+ "."))
    with (String.length n) by lia.
  rewrite substring_skip_app.
  rewrite <- (append_empty_r n) at 2. apply substring_0_app.
Qed.

Lemma prefix_append (p t : string) : String.prefix p (p +:+ t) = true.
Proof.
  induction p as [|a p IH]; [apply prefix_empty|].
  rewrite append_cons. cbn [String.prefix].
  by destruct (ascii_dec a a).
Qed.

Lemma str_in_prefix (p s : string) : String.prefix p s = true -> str_in p s = true.
Proof.
  intros Hp. unfold str_in. destruct s as [|b s].
  - by destruct p.
  - cbn [String.index]. by rewrite Hp.
Qed.

(** X21. For a factor column that pandas has numbered,
    'Factor Value[f].n', [clean_isatab_field_names] keeps the number and
    drops the name: the slice taken is the text after the last dot. *)
Theorem clean_field_name_keeps_suffix (f n : string) :
  let field_name := "Factor Value[" +:+ f +:+ "]" +:+ "." +:+ n in
  string_forall (fun c => negb (Ascii.eqb c ".")) n = true ->
  str_in "material type" (lower field_name) = false ->
  clean_field_name field_name = n /\
  forall before after,
    clean_isatab_field_names (before ++ field_name :: after)
    = clean_isatab_field_names before ++ n :: clean_isatab_field_names after.
Proof.
  intros field_name Hn Hmaterial.
  assert (Hclean : clean_field_name field_name = n).
  { assert (Hdot : after_last_dot field_name = n).
    { unfold field_name.
      replace ("Factor Value[" +:+ f +:+ "]" +:+ "." +:+ n)
        with (("Factor Value[" +:+ f +:+ "]") +:+ String "." n)
        by (by rewrite !append_assoc).
      by apply after_last_dot_append. }
    unfold clean_field_name.
    change (startswith field_name "Term Source REF") with false.
    change (startswith field_name "Term Accession Number") with false.
    change (startswith field_name "Unit") with false.
    rewrite (str_in_prefix "Factor Value[" field_name) by apply prefix_append.
    cbv iota. rewrite Hmaterial. by destruct (str_in "Characteristics[" field_name). }
  split; [exact Hclean|]. intros before after.
  unfold clean_isatab_field_names. rewrite map_app. cbn [map]. by rewrite Hclean.
Qed.

End numbered_names.

Lemma clean_field_name_keeps_suffix_witness :
  clean_field_name "Factor Value[dose].1" = "1".
Proof.
  refine (proj1 (clean_field_name_keeps_suffix "dose" "1" _ _));
    vm_compute; reflexivity.
Defined.
